(** * SWQA: the clang-format and cppcheck wrappers, embedded and verified

    A shallow embedding of [clangformat.py] and [cppcheck.py].  Python
    strings are Rocq strings (sequences of 8-bit code points), Python
    exceptions are the [Raise] results of a state-and-error monad, the file
    system, the console and the processes that were started are fields of an
    explicit [World], and what the interpreter and the operating system decide
    on their own (the wrapped tools, [glob], [realpath], access rights, how
    far [makedirs] gets) is a [Host] the whole development is parametric in.
    The [os.path] functions are the POSIX ones, and a path is resolved as
    the kernel resolves it on a file system without symbolic links. *)

From Stdlib Require Import ZArith String Ascii List Lia DecimalString QArith.
From stdpp Require Import gmap strings list.

Set Default Proof Using "Type".

(** ** Python strings *)

Module Py.

(** A JSON scalar as [json.load] returns it (floats left out). *)
Inductive scalar :=
| JNull
| JBool (b : bool)
| JInt (z : Z)
| JStr (s : string).

(** [str(n)] for an int. *)
Definition str_of_int (z : Z) : string := NilZero.string_of_int (Z.to_int z).

(** What a [{}] field of [str.format] renders a value as. *)
Definition format (v : scalar) : string :=
  match v with
  | JNull => "None"
  | JBool true => "True"
  | JBool false => "False"
  | JInt z => str_of_int z
  | JStr s => s
  end.

(** Truth value of a string: empty is false. *)
Definition truthy (s : string) : bool :=
  match s with
  | EmptyString => false
  | String _ _ => true
  end.

(** [s.startswith(pre)] *)
Fixpoint startswith (pre s : string) : bool :=
  match pre with
  | EmptyString => true
  | String a pre' =>
      match s with
      | EmptyString => false
      | String b s' => Ascii.eqb a b && startswith pre' s'
      end
  end.

(** [sep.join(l)] *)
Definition join (sep : string) (l : list string) : string := String.concat sep l.

(** [s.split(c)] for a one-character separator: never an empty list. *)
Fixpoint split_char (c : ascii) (s : string) : list string :=
  match s with
  | EmptyString => [EmptyString]
  | String a s' =>
      if Ascii.eqb a c then EmptyString :: split_char c s'
      else match split_char c s' with
           | [] => [String a EmptyString]
           | w :: ws => String a w :: ws
           end
  end.

(** [s.split(sep, 1)[0]]: the text before the first [sep] ([sep] not empty),
    all of [s] when there is none. *)
Fixpoint before_first (sep s : string) : string :=
  if startswith sep s then EmptyString
  else match s with
       | EmptyString => EmptyString
       | String a s' => String a (before_first sep s')
       end.

Fixpoint lstrip (P : ascii → bool) (s : string) : string :=
  match s with
  | EmptyString => EmptyString
  | String a s' => if P a then lstrip P s' else s
  end.

Fixpoint rstrip (P : ascii → bool) (s : string) : string :=
  match s with
  | EmptyString => EmptyString
  | String a s' =>
      match rstrip P s' with
      | EmptyString => if P a then EmptyString else String a EmptyString
      | r => String a r
      end
  end.

(** [s.strip(chars)], [chars] given as a predicate. *)
Definition strip (P : ascii → bool) (s : string) : string := rstrip P (lstrip P s).

(** The code points below 256 that [str.strip()] and [str.split()] take
    for white space. *)
Definition isspace (a : ascii) : bool :=
  let n := nat_of_ascii a in
  ((9 <=? n) && (n <=? 13)) || ((28 <=? n) && (n <=? 32)) || (n =? 133) || (n =? 160).

(** [s.split()]: the words between runs of white space. *)
Fixpoint words_go (cur : option string) (s : string) : list string :=
  match s with
  | EmptyString => option_list cur
  | String a s' =>
      if isspace a then option_list cur ++ words_go None s'
      else words_go (Some (from_option (λ w, w +:+ String a EmptyString)
                                       (String a EmptyString) cur)) s'
  end.
Definition split_ws (s : string) : list string := words_go None s.

Fixpoint endswith_char (c : ascii) (s : string) : bool :=
  match s with
  | EmptyString => false
  | String a EmptyString => Ascii.eqb a c
  | String _ s' => endswith_char c s'
  end.

(** The double quote and the line feed, as one-character strings. *)
Definition dquote : string := String "034" EmptyString.
Definition nl : string := String "010" EmptyString.

(** The values [CppCheck.version] handles: the exit code and the two
    decoded streams of a process, and the parsed version. *)
Inductive pyval :=
| PyInt (z : Z)
| PyFloat (q : Q)
| PyStr (s : string).

Definition truthy_val (v : pyval) : bool :=
  match v with
  | PyInt z => negb (Z.eqb z 0)
  | PyFloat q => negb (Qeq_bool q (0 # 1))
  | PyStr s => truthy s
  end.

End Py.

(** ** Exceptions, results and the monad of stateful, fallible code *)

Inductive exn :=
| TypeError
| ValueError
| IndexError
| OSError
| UnicodeDecodeError
| RuntimeError (msg : string).

Inductive result (A : Type) :=
| Ok (a : A)
| Raise (e : exn).
Arguments Ok {A} a.
Arguments Raise {A} e.

(** A computation over a state [S]: it ends in a value or in a raised
    exception, and either way leaves a state behind. *)
Definition M (S A : Type) : Type := S → result A * S.

Definition ret {S A} (a : A) : M S A := λ s, (Ok a, s).
Definition raise {S A} (e : exn) : M S A := λ s, (Raise e, s).
Definition bind {S A B} (m : M S A) (k : A → M S B) : M S B :=
  λ s, match m s with
       | (Ok a, s') => k a s'
       | (Raise e, s') => (Raise e, s')
       end.
Definition gets {S A} (f : S → A) : M S A := λ s, (Ok (f s), s).
Definition modify {S} (f : S → S) : M S unit := λ s, (Ok tt, f s).

Declare Scope py_scope.
Delimit Scope py_scope with py.
Notation "x <- c1 ;; c2" := (bind c1 (λ x, c2))
  (at level 100, c1 at next level, right associativity) : py_scope.
Notation "c1 ;; c2" := (bind c1 (λ _, c2))
  (at level 100, right associativity) : py_scope.
Local Open Scope py_scope.

(** [for x in l: body(x)] *)
Fixpoint for_in {S A} (l : list A) (body : A → M S unit) : M S unit :=
  match l with
  | [] => ret tt
  | x :: xs => body x ;; for_in xs body
  end.

(** A [for] loop whose body may [return]: [Some r] is the returned value,
    [None] says the loop ran to its end. *)
Fixpoint for_in_return {S A R} (l : list A) (body : A → M S (option R)) : M S (option R) :=
  match l with
  | [] => ret None
  | x :: xs =>
      r <- body x ;;
      match r with
      | Some v => ret (Some v)
      | None => for_in_return xs body
      end
  end.

(** Run a computation on one component of a larger state. *)
Definition zoom {S T A} (get : S → T) (set : T → S → S) (m : M T A) : M S A :=
  λ s, let '(r, t) := m (get s) in (r, set t s).

(** ** The world outside the interpreter *)

(** The file system: regular files with their contents, and directories.
    A file or a directory is filed under its absolute path in normal form:
    a slash before every name, no empty name, no [.] and no [..].  The root
    is a directory without being listed.  There are no symbolic links, so
    two paths name the same file exactly when they resolve to the same
    normal form. *)
Record FS := {
  fs_files : gmap string string;
  fs_dirs : gset string
}.

(** One process started through the shell: the command line, the directory
    it ran in, and what came back (exit code, stdout, stderr) or the
    exception that [Popen], [communicate] or [decode] raised. *)
Record ProcCall := {
  pc_command : string;
  pc_cwd : string;
  pc_outcome : result (Z * string * string)
}.

Record World := {
  w_fs : FS;
  w_environ : gmap string string;
  w_cwd : string;
  w_console : list string;
  w_spawned : list ProcCall
}.

Definition set_fs (f : FS) (w : World) : World :=
  {| w_fs := f; w_environ := w_environ w; w_cwd := w_cwd w;
     w_console := w_console w; w_spawned := w_spawned w |}.

Definition set_files (m : gmap string string) (w : World) : World :=
  set_fs {| fs_files := m; fs_dirs := fs_dirs (w_fs w) |} w.

Definition set_dirs (d : gset string) (w : World) : World :=
  set_fs {| fs_files := fs_files (w_fs w); fs_dirs := d |} w.

Definition log_console (line : string) (w : World) : World :=
  {| w_fs := w_fs w; w_environ := w_environ w; w_cwd := w_cwd w;
     w_console := w_console w ++ [line]; w_spawned := w_spawned w |}.

Definition log_spawned (c : ProcCall) (w : World) : World :=
  {| w_fs := w_fs w; w_environ := w_environ w; w_cwd := w_cwd w;
     w_console := w_console w; w_spawned := w_spawned w ++ [c] |}.

(** *** Path resolution

    The walk of the kernel over the components of a path.  It starts at the
    root for an absolute path and at the current directory for a relative
    one.  A component is looked up in a directory only: the walk fails when
    what it has reached is no directory and a component is left, be it a
    name, [.], [..] or the empty component that a trailing slash leaves.
    The empty path names nothing. *)
Module posix.

(** The normal form of the names [stack], the innermost first. *)
Definition key (stack : list string) : string := "/" +:+ Py.join "/" (rev stack).

(** [k] is the root or a directory of [dirs]. *)
Definition is_dir_key (dirs : gset string) (k : string) : bool :=
  bool_decide (k = "/") || bool_decide (k ∈ dirs).

Fixpoint walk (dirs : gset string) (stack comps : list string) : option (list string) :=
  match comps with
  | [] => Some stack
  | c :: rest =>
      if is_dir_key dirs (key stack) then
        if bool_decide (c = EmptyString) || bool_decide (c = ".") then walk dirs stack rest
        else if bool_decide (c = "..") then walk dirs (tail stack) rest
        else walk dirs (c :: stack) rest
      else None
  end.

(** What the path [p] names, seen from the directory [cwd]: the normal
    form, or [None] when the path leads nowhere. *)
Definition resolve (dirs : gset string) (cwd p : string) : option string :=
  if Py.truthy p then
    key <$> walk dirs [] (Py.split_char "/"
                            (if Py.startswith "/" p then p else cwd +:+ "/" +:+ p))
  else None.

(** [p] names a directory. *)
Definition is_dir (dirs : gset string) (cwd p : string) : bool :=
  match resolve dirs cwd p with
  | Some k => is_dir_key dirs k
  | None => false
  end.

(** [p] can name a regular file: it leads somewhere, and not to a
    directory. *)
Definition creatable (dirs : gset string) (cwd p : string) : bool :=
  match resolve dirs cwd p with
  | Some k => negb (is_dir_key dirs k)
  | None => false
  end.

(** The same, in a world. *)
Definition lookup (w : World) (p : string) : option string :=
  resolve (fs_dirs (w_fs w)) (w_cwd w) p.

End posix.

(** What the program cannot decide: the behaviour of the shell and of the
    wrapped tools, symbolic links, the match of a glob pattern, access
    rights, how far [os.makedirs] gets, and the parser behind [float].  Each
    answer depends on the file system, and where it matters on the
    environment and on a directory. *)
Class Host := {
  (** [os.path.realpath(p)], with the current directory [cwd] *)
  host_realpath : FS → string → string → string;
  (** the resolved path is absolute *)
  host_realpath_isabs : ∀ fs cwd p, Py.startswith "/" (host_realpath fs cwd p) = true;
  (** [glob.glob(pattern, recursive=r)], with the current directory [cwd] *)
  host_glob : FS → string → string → bool → list string;
  (** [Popen(command, cwd=dir, shell=True)], [communicate] and the two
      [decode]s: the outcome, and the file system the process leaves. *)
  host_shell : FS → gmap string string → string → string → result (Z * string * string) * FS;
  (** whether [open(p, 'w')] succeeds *)
  host_may_write : FS → string → string → bool;
  (** it succeeds only where the path leads to, and on no directory *)
  host_may_write_file : ∀ fs cwd p,
    host_may_write fs cwd p = true → posix.creatable (fs_dirs fs) cwd p = true;
  (** [os.makedirs(p)]: whether it returns, and the directories there are
      afterwards.  It makes the missing directories one after the other, so
      what it made before it failed stays. *)
  host_makedirs : FS → string → string → bool * gset string;
  (** no directory is lost *)
  host_makedirs_keeps : ∀ fs cwd p, fs_dirs fs ⊆ (host_makedirs fs cwd p).2;
  (** when it returns, the path names a directory *)
  host_makedirs_made : ∀ fs cwd p,
    (host_makedirs fs cwd p).1 = true → posix.is_dir (host_makedirs fs cwd p).2 cwd p = true;
  (** [float(s)], [None] where it raises [ValueError] *)
  host_float : string → option Q
}.

(** [print(line)] *)
Definition print (line : string) : M World unit := modify (log_console line).

(** [open(p, 'w')]: the file the path names is created, or emptied when
    it exists.  The file object that is returned stands for that file, not
    for the spelling of its path. *)
Definition open_w `{Host} (p : string) : M World string :=
  λ w, match posix.lookup w p with
       | Some f =>
           if host_may_write (w_fs w) (w_cwd w) p
           then (Ok f, set_files (<[f := EmptyString]> (fs_files (w_fs w))) w)
           else (Raise OSError, w)
       | None => (Raise OSError, w)
       end.

(** [f.write(text)] on the file object [f]: the text is appended.  (The
    program closes every file it opens before anything else reads it, so
    buffering is not modelled.) *)
Definition write (f text : string) : M World unit :=
  modify (λ w, set_files (<[f := default EmptyString (fs_files (w_fs w) !! f) +:+ text]>
                            (fs_files (w_fs w))) w).

Module os.

Module path.

Definition isabs (p : string) : bool := Py.startswith "/" p.

Definition join1 (path b : string) : string :=
  if Py.startswith "/" b then b
  else if negb (Py.truthy path) || Py.endswith_char "/" path then path +:+ b
  else path +:+ "/" +:+ b.

(** [os.path.join(a, *p)] *)
Definition join (a : string) (p : list string) : string := fold_left join1 p a.

(** [os.path.isfile(p)]: the path leads to a regular file. *)
Definition isfile (w : World) (p : string) : bool :=
  match posix.lookup w p with
  | Some f => bool_decide (is_Some (fs_files (w_fs w) !! f))
  | None => false
  end.

(** [os.path.isdir(p)] *)
Definition isdir (w : World) (p : string) : bool :=
  posix.is_dir (fs_dirs (w_fs w)) (w_cwd w) p.

(** *** [os.path.expandvars]

    The library substitutes the leftmost match of
    [\$(\w+|\{[^}]*\})] whose variable is set, and goes on behind the
    value; a reference to an unset variable stays as it is.  The scan
    below reads the path once, left to right. *)
Definition is_word (a : ascii) : bool :=
  let n := nat_of_ascii a in
  ((48 <=? n) && (n <=? 57)) || ((65 <=? n) && (n <=? 90))
  || ((97 <=? n) && (n <=? 122)) || (n =? 95).

Fixpoint has_char (c : ascii) (s : string) : bool :=
  match s with
  | EmptyString => false
  | String a s' => Ascii.eqb a c || has_char c s'
  end.

Definition head_is (P : ascii → bool) (s : string) : bool :=
  match s with
  | EmptyString => false
  | String a _ => P a
  end.

(** a brace right here, closed further on *)
Definition opens_brace (s : string) : bool :=
  match s with
  | EmptyString => false
  | String a s' => Ascii.eqb a "{" && has_char "}" s'
  end.

Inductive scan :=
| Plain
| Name (acc : string)
| Open
| Brace (acc : string).

(** the value of [name], or the reference itself when [name] is unset *)
Definition subst (env : gmap string string) (name raw : string) : string :=
  default raw (env !! name).

Fixpoint expand (env : gmap string string) (st : scan) (s : string) : string :=
  match s with
  | EmptyString =>
      match st with
      | Name acc => subst env acc ("$" +:+ acc)
      | Brace acc => "${" +:+ acc
      | _ => EmptyString
      end
  | String a s' =>
      let plain :=
        if Ascii.eqb a "$" then
          if head_is is_word s' then expand env (Name EmptyString) s'
          else if opens_brace s' then expand env Open s'
          else String a (expand env Plain s')
        else String a (expand env Plain s') in
      match st with
      | Plain => plain
      | Name acc =>
          if is_word a then expand env (Name (acc +:+ String a EmptyString)) s'
          else subst env acc ("$" +:+ acc) +:+ plain
      | Open => expand env (Brace EmptyString) s'
      | Brace acc =>
          if Ascii.eqb a "}"
          then subst env acc ("${" +:+ acc +:+ "}") +:+ expand env Plain s'
          else expand env (Brace (acc +:+ String a EmptyString)) s'
      end
  end.

Definition expandvars (w : World) (p : string) : string :=
  if has_char "$" p then expand (w_environ w) Plain p else p.

(** *** [normpath], [abspath], [commonprefix], [relpath] *)

Definition norm_step (initial_slashes : nat) (new_comps : list string) (comp : string)
  : list string :=
  if bool_decide (comp = EmptyString) || bool_decide (comp = ".") then new_comps
  else if negb (bool_decide (comp = ".."))
          || (bool_decide (initial_slashes = 0%nat) && bool_decide (new_comps = []))
          || bool_decide (last new_comps = Some "..")
       then new_comps ++ [comp]
       else removelast new_comps.

Definition normpath (p : string) : string :=
  if Py.truthy p then
    let initial_slashes :=
      if Py.startswith "/" p
      then if Py.startswith "//" p && negb (Py.startswith "///" p) then 2%nat else 1%nat
      else 0%nat in
    let comps := fold_left (norm_step initial_slashes) (Py.split_char "/" p) [] in
    let path := String.concat EmptyString (replicate initial_slashes "/")
                +:+ Py.join "/" comps in
    if Py.truthy path then path else "."
  else ".".

Definition abspath (w : World) (p : string) : string :=
  if isabs p then normpath p else normpath (join (w_cwd w) [p]).

Fixpoint common_chars (s1 s2 : string) : string :=
  match s1, s2 with
  | String a s1', String b s2' =>
      if Ascii.eqb a b then String a (common_chars s1' s2') else EmptyString
  | _, _ => EmptyString
  end.

Fixpoint common_comps (l1 l2 : list string) : list string :=
  match l1, l2 with
  | a :: l1', b :: l2' => if bool_decide (a = b) then a :: common_comps l1' l2' else []
  | _, _ => []
  end.

(** [os.path.commonprefix(m)], character by character.  [None] is not a
    path: [os.fspath] raises [TypeError] on it. *)
Definition commonprefix (m : list (option string)) : result string :=
  match m with
  | [] => Ok EmptyString
  | first :: rest =>
      match first, mapM id rest with
      | Some s, Some ss => Ok (fold_left common_chars ss s)
      | _, _ => Raise TypeError
      end
  end.

(** [os.path.relpath(p, start)]: [ValueError] when there is no path. *)
Definition relpath (w : World) (p : option string) (start : string) : result string :=
  match p with
  | None => Raise ValueError
  | Some p =>
      if Py.truthy p then
        let start_list := filter (λ x, Py.truthy x) (Py.split_char "/" (abspath w start)) in
        let path_list := filter (λ x, Py.truthy x) (Py.split_char "/" (abspath w p)) in
        let i := length (common_comps start_list path_list) in
        match replicate (length start_list - i) ".." ++ drop i path_list with
        | [] => Ok "."
        | c :: cs => Ok (join c cs)
        end
      else Raise ValueError
  end.

End path.

Definition getcwd : M World string := gets w_cwd.

(** [os.makedirs(p)]: the directories it made are there whether it
    returns or raises. *)
Definition makedirs `{Host} (p : string) : M World unit :=
  λ w, let '(made, dirs) := host_makedirs (w_fs w) (w_cwd w) p in
       (if made then Ok tt else Raise OSError, set_dirs dirs w).

End os.

(** Lift a pure, fallible step into the monad. *)
Definition lift {S A} (r : result A) : M S A := λ s, (r, s).

(** [a, b = t] for a tuple [t]: [ValueError] unless it has two items. *)
Definition unpack2 {A} (t : list A) : result (A * A) :=
  match t with
  | [a; b] => Ok (a, b)
  | _ => Raise ValueError
  end.

(** [v[0]] *)
Definition getitem0 (v : Py.pyval) : result string :=
  match v with
  | Py.PyStr (String a _) => Ok (String a EmptyString)
  | Py.PyStr EmptyString => Raise IndexError
  | _ => Raise TypeError
  end.

(** [l[i]] on a list *)
Definition getitem {A} (l : list A) (i : nat) : result A :=
  match l !! i with
  | Some x => Ok x
  | None => Raise IndexError
  end.

(** Computations on the world, run where an object is part of the state. *)
Definition on_world {X A} (m : M World A) : M (X * World) A :=
  zoom snd (λ w s, (s.1, w)) m.
Definition on_self {X A} (m : M X A) : M (X * World) A :=
  zoom fst (λ x s, (x, s.2)) m.

(** ** The data model: the JSON documents *)

Module SuppressionEntry.
Record t := {
  error_id : string;
  filename : string;
  line : Py.scalar;
  comment : string
}.
End SuppressionEntry.

(** One configuration of the analyzer, the value [_raw_config] holds. *)
Module AnalyzerConfig.
Record t := {
  threads : Z;
  output_format : string;
  output_template : option string;
  message_level : list string;
  defines : list string;
  un_defines : list string;
  standard : string;
  platform : string;
  on_error_exit_code : Z;
  includes : list string;
  excludes : list string;
  directories : list string;
  files : list string;
  suppression : option (list SuppressionEntry.t);
  add_ons : bool;
  options : list string;
  output_dir : string
}.
End AnalyzerConfig.

Module DirSpec.
Record t := {
  path : string;
  recursive : bool;
  extensions : list string
}.
End DirSpec.

Module FormatterConfig.
Record t := {
  inplace : bool;
  style : string;
  files : list string;
  directories : list DirSpec.t
}.
End FormatterConfig.

(** ** cppcheck.py: class CppCheckConfig *)

Module CppCheckConfig.

Record t := {
  _name : string;
  _raw_config : AnalyzerConfig.t;
  _results_dir : string;
  _cpp_working_dir : string
}.

Section Methods.
Context `{Host}.

Definition __init__ (name : string) (config : AnalyzerConfig.t) : t :=
  {| _name := name; _raw_config := config;
     _results_dir := EmptyString; _cpp_working_dir := EmptyString |}.

Definition cpp_working_dir (self : t) : string := _cpp_working_dir self.
Definition results_dir (self : t) : string := _results_dir self.
Definition name (self : t) : string := _name self.

Definition files (self : t) : string :=
  Py.join " " (AnalyzerConfig.files (_raw_config self)).

Definition directories (self : t) : string :=
  Py.join " " (AnalyzerConfig.directories (_raw_config self)).

Definition includes (self : t) : string :=
  Py.join " " (map (λ include_file, "-I" +:+ include_file)
                   (AnalyzerConfig.includes (_raw_config self))).

Definition excludes (self : t) : string :=
  Py.join " " (map (λ exclude_file, "-i" +:+ exclude_file)
                   (AnalyzerConfig.excludes (_raw_config self))).

Definition defines (self : t) : string :=
  Py.strip Py.isspace
    (Py.join " " (map (λ define, "-D" +:+ define)
                      (AnalyzerConfig.defines (_raw_config self)))).

Definition un_defines (self : t) : string :=
  Py.join " " (map (λ un_define, "-i" +:+ un_define)
                   (AnalyzerConfig.un_defines (_raw_config self))).

Definition message_level (self : t) : string :=
  let levels := Py.join "," (AnalyzerConfig.message_level (_raw_config self)) in
  "--enable=" +:+ Py.strip Py.isspace levels.

Definition add_ons (self : t) : bool := AnalyzerConfig.add_ons (_raw_config self).

Definition threads (self : t) : string :=
  "-j " +:+ Py.str_of_int (AnalyzerConfig.threads (_raw_config self)).

(** The user template takes priority; a null or empty one is false. *)
Definition output_format (self : t) : string :=
  match AnalyzerConfig.output_template (_raw_config self) with
  | Some (String a tpl) => "--template=" +:+ Py.dquote +:+ String a tpl +:+ Py.dquote
  | _ => "--template=" +:+ Py.dquote
         +:+ AnalyzerConfig.output_format (_raw_config self) +:+ Py.dquote
  end.

Definition output_dir (self : t) : string := AnalyzerConfig.output_dir (_raw_config self).

Definition options (self : t) : string :=
  Py.join " " (AnalyzerConfig.options (_raw_config self)).

Definition standard (self : t) : string :=
  "--std=" +:+ AnalyzerConfig.standard (_raw_config self).

Definition platform (self : t) : string :=
  "--platform=" +:+ AnalyzerConfig.platform (_raw_config self).

Definition error_exit_code (self : t) : string :=
  "--error-exitcode=" +:+ Py.str_of_int (AnalyzerConfig.on_error_exit_code (_raw_config self)).

(** The setter of [cpp_working_dir]: both attributes are assigned before
    the directory is looked for. *)
Definition set_cpp_working_dir (val : string) : M (t * World) unit :=
  on_self (modify (λ self, {| _name := _name self; _raw_config := _raw_config self;
                              _results_dir := _results_dir self;
                              _cpp_working_dir := val |})) ;;
  on_self (modify (λ self, {| _name := _name self; _raw_config := _raw_config self;
                              _results_dir :=
                                os.path.join (_cpp_working_dir self)
                                             [output_dir self; name self];
                              _cpp_working_dir := _cpp_working_dir self |})) ;;
  d <- on_self (gets results_dir) ;;
  isdir <- on_world (gets (λ w, os.path.isdir w d)) ;;
  if negb isdir then on_world (os.makedirs d) else ret tt.

(** The body of the loop over the suppression entries (lines 78 to 97),
    on the open file [f]. *)
Definition write_entry (f : string) (item : SuppressionEntry.t) : M World unit :=
  filename <- gets (λ w, os.path.expandvars w (SuppressionEntry.filename item)) ;;
  isfile <- gets (λ w, os.path.isfile w filename) ;;
  if negb isfile then raise (RuntimeError ("Invalid path: " +:+ filename))
  else
    let output_string :=
      SuppressionEntry.error_id item +:+ ":" +:+ filename +:+ ":"
      +:+ Py.format (SuppressionEntry.line item) in
    let output_string := Py.before_first "::" output_string in
    let output_string := Py.strip (Ascii.eqb ":") output_string in
    write f ("// " +:+ SuppressionEntry.comment item +:+ Py.nl) ;;
    write f (output_string +:+ Py.nl +:+ Py.nl).

Definition generate_suppression_list (self : t) : M World string :=
  let config_suppression := AnalyzerConfig.suppression (_raw_config self) in
  act_out_file <-
    match config_suppression with
    | Some (item :: items) =>
        let act_out_file :=
          os.path.join (_results_dir self) [name self +:+ "_suppression_list.txt"] in
        f <- open_w act_out_file ;;
        for_in (item :: items) (write_entry f) ;;
        ret (Some act_out_file)
    | _ => ret None
    end ;;
  cwd <- os.getcwd ;;
  start <- lift (os.path.commonprefix [Some cwd; act_out_file]) ;;
  w <- gets id ;;
  lift (os.path.relpath w act_out_file start).

Definition build_command (self : t) : M World string :=
  let command :=
    Py.join " " [threads self; output_format self; message_level self; defines self;
                 un_defines self; standard self; platform self; error_exit_code self;
                 includes self; excludes self; directories self; files self] in
  suppression_list <- generate_suppression_list self ;;
  let command :=
    if Py.truthy suppression_list
    then Py.join " " ["--suppressions-list=" +:+ suppression_list; command]
    else command in
  let command := if add_ons self then Py.join " " ["--dump"; command] else command in
  let command :=
    if Py.truthy (options self) then Py.join " " [options self; command] else command in
  ret command.

End Methods.
End CppCheckConfig.

(** ** cppcheck.py: class CppCheck *)

Module CppCheck.

Record t := {
  _cppcheck_exe : string;
  _version : Py.pyval;
  configurations : gmap string CppCheckConfig.t
}.

Definition __init__ (exe_path : string) : t :=
  {| _cppcheck_exe := exe_path; _version := Py.PyStr "unknown"; configurations := ∅ |}.

Definition set_version (v : Py.pyval) (self : t) : t :=
  {| _cppcheck_exe := _cppcheck_exe self; _version := v;
     configurations := configurations self |}.

Definition set_configuration (config : string) (cfg : CppCheckConfig.t) (self : t) : t :=
  {| _cppcheck_exe := _cppcheck_exe self; _version := _version self;
     configurations := <[config := cfg]> (configurations self) |}.

Section Methods.
Context `{Host}.

(** The shell runs [command] in [working_dir]; the call is recorded. *)
Definition _execute_shell_cmd (command : string) (working_dir : option string)
  : M World (Z * string * string) :=
  λ w, let actual_working_dir := default (w_cwd w) working_dir in
       let '(outcome, fs') :=
         host_shell (w_fs w) (w_environ w) command actual_working_dir in
       (outcome,
        log_spawned {| pc_command := command; pc_cwd := actual_working_dir;
                       pc_outcome := outcome |} (set_fs fs' w)).

Definition cppcheck (self : t) (cmd working_dir : string)
  : M World (Z * string * string) :=
  let full_command := _cppcheck_exe self +:+ " " +:+ cmd in
  print "Running CPPCheck, please be patient..." ;;
  print full_command ;;
  r <- _execute_shell_cmd full_command (Some working_dir) ;;
  print ("Return Code: " +:+ Py.str_of_int r.1.1) ;;
  print "CPPCheck Complete" ;;
  ret r.

(** The [version] property.  [cppcheck] returns a tuple of three items,
    which the first statement unpacks into two names. *)
Definition version : M (t * World) Py.pyval :=
  self <- gets fst ;;
  r <- on_world (cwd <- os.getcwd ;; cppcheck self "--version" cwd) ;;
  p <- lift (unpack2 [Py.PyInt r.1.1; Py.PyStr r.1.2; Py.PyStr r.2]) ;;
  let cmd_output := p.2 in
  (if Py.truthy_val cmd_output then
     c <- lift (getitem0 cmd_output) ;;
     let formatted := Py.split_ws c in
     x <- lift (getitem formatted 1) ;;
     match host_float x with
     | Some q => on_self (modify (set_version (Py.PyFloat q)))
     | None => raise ValueError
     end
   else on_self (modify (set_version (Py.PyStr "unknown")))) ;;
  gets (λ s, _version s.1).

(** [execute]: the configuration object is the one the mapping holds, so
    what the setter assigns stays in the mapping. *)
Definition execute (config working_dir : string) : M (t * World) Z :=
  let return_code := 0%Z in
  self <- gets fst ;;
  match configurations self !! config with
  | Some cfg0 =>
      zoom (λ s, (cfg0, s.2)) (λ c s, (set_configuration config c.1 s.1, c.2))
           (CppCheckConfig.set_cpp_working_dir working_dir) ;;
      self <- gets fst ;;
      let cfg := default cfg0 (configurations self !! config) in
      command <- on_world (CppCheckConfig.build_command cfg) ;;
      r <- on_world (cppcheck self command working_dir) ;;
      let '(return_code, out, err) := r in
      let log_file :=
        os.path.join (CppCheckConfig.results_dir cfg) [CppCheckConfig.name cfg +:+ "_log.txt"] in
      on_world (f <- open_w log_file ;; write f out) ;;
      let err_file :=
        os.path.join (CppCheckConfig.results_dir cfg) [CppCheckConfig.name cfg +:+ "_err.txt"] in
      on_world (f <- open_w err_file ;; write f err) ;;
      ret return_code
  | None => ret return_code
  end.

(** [load_config]: [json_load] stands for [open(file)] and [json.load],
    which yield the parsed document, a mapping from configuration names to
    configurations, or raise.  The loop stores one fresh [CppCheckConfig]
    under each name; the names of a mapping are distinct, so the order of
    the loop does not show in the result. *)
Definition load_config (json_load : string → M World (gmap string AnalyzerConfig.t))
    (file : string) : M (t * World) unit :=
  raw_json <- on_world (json_load file) ;;
  for_in (map_to_list raw_json) (λ item,
    on_self (modify (set_configuration item.1 (CppCheckConfig.__init__ item.1 item.2)))).

End Methods.
End CppCheck.

(** ** clangformat.py *)

Module ClangFormatConfig.

Record t := { _raw_config : FormatterConfig.t }.

Section Methods.
Context `{Host}.

Definition inplace (self : t) : string :=
  if FormatterConfig.inplace (_raw_config self) then "-i" else EmptyString.

Definition style (self : t) : string :=
  "-style=" +:+ FormatterConfig.style (_raw_config self).

Definition files (self : t) : list string := FormatterConfig.files (_raw_config self).

Definition directories (self : t) : list DirSpec.t :=
  FormatterConfig.directories (_raw_config self).

Definition build_file_command (self : t) (file working_dir : string) : M World string :=
  path <- gets (λ w, host_realpath (w_fs w) (w_cwd w) (os.path.join working_dir [file])) ;;
  ret (Py.join " " [inplace self; style self; path]).

Definition build_directory_command (self : t) (dir_obj : DirSpec.t) (working_dir : string)
  : M World string :=
  path <- gets (λ w, host_realpath (w_fs w) (w_cwd w)
                                   (os.path.join working_dir [DirSpec.path dir_obj])) ;;
  files <- gets (λ w,
    fold_left (λ files ext,
                 let recurse := DirSpec.recursive dir_obj in
                 let search_start :=
                   if recurse then os.path.join path ["**"; ext]
                   else os.path.join path [ext] in
                 files ++ host_glob (w_fs w) (w_cwd w) search_start recurse)
              (DirSpec.extensions dir_obj) []) ;;
  let files := Py.join " " files in
  ret (Py.join " " [inplace self; style self; files]).

End Methods.
End ClangFormatConfig.

Module ClangFormatter.

Record t := {
  config : ClangFormatConfig.t;
  working_dir : string;
  project_file_dir : string;
  clang_format_exe : option string
}.

Section Methods.
Context `{Host}.

Definition _execute_shell_cmd (command : string) (working_dir : option string)
  : M World (Z * string * string) :=
  λ w, let actual_working_dir := default (w_cwd w) working_dir in
       let '(outcome, fs') :=
         host_shell (w_fs w) (w_environ w) command actual_working_dir in
       (outcome,
        log_spawned {| pc_command := command; pc_cwd := actual_working_dir;
                       pc_outcome := outcome |} (set_fs fs' w)).

(** [template.format(exe, args)]; an executable left at its default
    [None] is rendered as the word None. *)
Definition template (exe : option string) (args : string) : string :=
  default "None" exe +:+ " -verbose " +:+ args.

Definition execute (self : t) : M World Z :=
  r <- for_in_return (ClangFormatConfig.files (config self)) (λ file,
         args <- ClangFormatConfig.build_file_command (config self) file
                   (project_file_dir self) ;;
         let command := template (clang_format_exe self) args in
         r <- _execute_shell_cmd command (Some (working_dir self)) ;;
         let '(return_code, stdout, stderr) := r in
         if Py.truthy stderr then print stderr ;; ret (Some return_code)
         else ret None) ;;
  match r with
  | Some return_code => ret return_code
  | None =>
      r <- for_in_return (ClangFormatConfig.directories (config self)) (λ directory,
             files <- ClangFormatConfig.build_directory_command (config self) directory
                        (project_file_dir self) ;;
             let command := template (clang_format_exe self) files in
             r <- _execute_shell_cmd command (Some (working_dir self)) ;;
             let '(return_code, stdout, stderr) := r in
             if Py.truthy stderr then print stderr ;; ret (Some return_code)
             else ret None) ;;
      match r with
      | Some return_code => ret return_code
      | None => ret 0%Z
      end
  end.

End Methods.
End ClangFormatter.

(** ** What the claims are stated with *)

(** The number of [flag] tokens of a command line, a token being what the
    shell separates by blanks. *)
Definition count_flag (flag command : string) : nat :=
  count_occ string_dec (Py.split_char " " command) flag.

(** The characters of a printed integer: digits and the sign. *)
Fixpoint numeric (s : string) : bool :=
  match s with
  | EmptyString => true
  | String a s' =>
      (Ascii.eqb a "-" || (Nat.leb 48 (nat_of_ascii a) && Nat.leb (nat_of_ascii a) 57))
      && numeric s'
  end.

(** [sep] occurs somewhere in [s]. *)
Fixpoint occurs (sep s : string) : bool :=
  Py.startswith sep s
  || match s with
     | EmptyString => false
     | String _ s' => occurs sep s'
     end.

(** What one suppression entry adds to the list: the comment line, the
    suppression line and an empty line. *)
Definition entry_text (w : World) (item : SuppressionEntry.t) : string :=
  let filename := os.path.expandvars w (SuppressionEntry.filename item) in
  "// " +:+ SuppressionEntry.comment item +:+ Py.nl
  +:+ Py.strip (Ascii.eqb ":")
        (Py.before_first "::"
           (SuppressionEntry.error_id item +:+ ":" +:+ filename +:+ ":"
            +:+ Py.format (SuppressionEntry.line item)))
  +:+ Py.nl +:+ Py.nl.

Definition entries_text (w : World) (items : list SuppressionEntry.t) : string :=
  String.concat EmptyString (map (entry_text w) items).

(** The entry names an existing file, once variables are expanded. *)
Definition entry_valid (w : World) (item : SuppressionEntry.t) : bool :=
  os.path.isfile w (os.path.expandvars w (SuppressionEntry.filename item)).

(** The path of the suppression list of a configuration. *)
Definition suppression_file (self : CppCheckConfig.t) : string :=
  os.path.join (CppCheckConfig._results_dir self)
               [CppCheckConfig.name self +:+ "_suppression_list.txt"].

(** The world in which the file filed under [k] holds [text]. *)
Definition with_key (k text : string) (w : World) : World :=
  set_files (<[k := text]> (fs_files (w_fs w))) w.

(** The world in which the file that the path [p] names holds [text]; a
    path that leads nowhere names no file. *)
Definition with_file (p text : string) (w : World) : World :=
  match posix.lookup w p with
  | Some k => with_key k text w
  | None => w
  end.

(** What the file that the path [p] names holds. *)
Definition read_text (w : World) (p : string) : option string :=
  k ← posix.lookup w p; fs_files (w_fs w) !! k.

(** The paths [p] and [q] name the same file or directory. *)
Definition same_file (w : World) (p q : string) : bool :=
  match posix.lookup w p with
  | Some k => bool_decide (posix.lookup w q = Some k)
  | None => false
  end.





(** ** A concrete host, worlds and configurations *)

(** A host whose tool prints OK and exits with 0, that allows every write
    to a file whose directory is there, has no symbolic links and matches
    no glob pattern. *)
Definition demo_realpath (fs : FS) (cwd p : string) : string :=
  let q := os.path.join cwd [p] in
  if os.path.isabs q then q else "/" +:+ q.

Lemma demo_realpath_isabs fs cwd p : Py.startswith "/" (demo_realpath fs cwd p) = true.
Proof.
  unfold demo_realpath, os.path.isabs.
  destruct (Py.startswith "/" (os.path.join cwd [p])) eqn:E; [exact E | reflexivity].
Qed.

Definition demo_may_write (fs : FS) (cwd p : string) : bool :=
  posix.creatable (fs_dirs fs) cwd p.

Lemma demo_may_write_file fs cwd p :
  demo_may_write fs cwd p = true → posix.creatable (fs_dirs fs) cwd p = true.
Proof. intros Hm. exact Hm. Qed.

(** The names a path goes through when nothing is missing on the way. *)
Fixpoint demo_norm (stack comps : list string) : list string :=
  match comps with
  | [] => stack
  | c :: rest =>
      if bool_decide (c = EmptyString) || bool_decide (c = ".") then demo_norm stack rest
      else if bool_decide (c = "..") then demo_norm (tail stack) rest
      else demo_norm (c :: stack) rest
  end.

(** The directory of the names [stack] and the directories above it. *)
Fixpoint demo_ancestors (stack : list string) : list string :=
  match stack with
  | [] => []
  | c :: rest => posix.key (c :: rest) :: demo_ancestors rest
  end.

(** A [makedirs] that is allowed everything: it refuses a directory that
    is there and a path with a regular file on its way, and makes every
    missing directory otherwise. *)
Definition demo_makedirs (fs : FS) (cwd p : string) : bool * gset string :=
  let comps := Py.split_char "/" (if Py.startswith "/" p then p else cwd +:+ "/" +:+ p) in
  let made := demo_ancestors (demo_norm [] comps) in
  let dirs := fs_dirs fs ∪ list_to_set made in
  if negb (posix.is_dir (fs_dirs fs) cwd p)
     && forallb (λ k, bool_decide (fs_files fs !! k = None)) made
     && posix.is_dir dirs cwd p
  then (true, dirs)
  else (false, fs_dirs fs).

Lemma demo_makedirs_keeps fs cwd p : fs_dirs fs ⊆ (demo_makedirs fs cwd p).2.
Proof.
  unfold demo_makedirs. destruct (_ && _); cbn [snd]; [apply union_subseteq_l | reflexivity].
Qed.

Lemma demo_makedirs_made fs cwd p :
  (demo_makedirs fs cwd p).1 = true → posix.is_dir (demo_makedirs fs cwd p).2 cwd p = true.
Proof.
  unfold demo_makedirs. destruct (_ && _) eqn:E; cbn [fst snd]; [| discriminate].
  intros _. apply andb_prop in E as [_ E]. exact E.
Qed.

(** A [makedirs] that makes [out] in the project and then fails. *)
Definition failing_makedirs (fs : FS) (cwd p : string) : bool * gset string :=
  (false, fs_dirs fs ∪ {[ "/home/dev/proj/out" ]}).

Lemma failing_makedirs_keeps fs cwd p : fs_dirs fs ⊆ (failing_makedirs fs cwd p).2.
Proof. apply union_subseteq_l. Qed.

Lemma failing_makedirs_made fs cwd p :
  (failing_makedirs fs cwd p).1 = true → posix.is_dir (failing_makedirs fs cwd p).2 cwd p = true.
Proof. discriminate. Qed.

Definition demo_host : Host := {|
  host_realpath := demo_realpath;
  host_realpath_isabs := demo_realpath_isabs;
  host_glob := λ _ _ _ _, [];
  host_shell := λ fs _ _ _, (Ok (0%Z, "OK", EmptyString), fs);
  host_may_write := demo_may_write;
  host_may_write_file := demo_may_write_file;
  host_makedirs := demo_makedirs;
  host_makedirs_keeps := demo_makedirs_keeps;
  host_makedirs_made := demo_makedirs_made;
  host_float := λ _, None
|}.

(** A host like [demo_host] whose tool prints nothing at all. *)
Definition silent_host : Host := {|
  host_realpath := demo_realpath;
  host_realpath_isabs := demo_realpath_isabs;
  host_glob := λ _ _ _ _, [];
  host_shell := λ fs _ _ _, (Ok (0%Z, EmptyString, EmptyString), fs);
  host_may_write := demo_may_write;
  host_may_write_file := demo_may_write_file;
  host_makedirs := demo_makedirs;
  host_makedirs_keeps := demo_makedirs_keeps;
  host_makedirs_made := demo_makedirs_made;
  host_float := λ _, None
|}.

(** A host whose formatter complains about [b.cpp] and exits with 3. *)
Definition noisy_host : Host := {|
  host_realpath := demo_realpath;
  host_realpath_isabs := demo_realpath_isabs;
  host_glob := λ _ _ _ _, [];
  host_shell := λ fs _ command _,
    if occurs "b.cpp" command
    then (Ok (3%Z, EmptyString, "b.cpp: unknown style"), fs)
    else (Ok (0%Z, "Formatting", EmptyString), fs);
  host_may_write := demo_may_write;
  host_may_write_file := demo_may_write_file;
  host_makedirs := demo_makedirs;
  host_makedirs_keeps := demo_makedirs_keeps;
  host_makedirs_made := demo_makedirs_made;
  host_float := λ _, None
|}.

(** A project directory, which is the current directory: one source file
    and a file with a double colon in its name, both in [src]. *)
Definition demo_world : World := {|
  w_fs := {| fs_files := {[ "/home/dev/proj/src/a.cpp" := "int main() {}";
                            "/home/dev/proj/src/x::y.cpp" := "int f();" ]};
             fs_dirs := {[ "/home"; "/home/dev"; "/home/dev/proj";
                           "/home/dev/proj/src" ]} |};
  w_environ := {[ "HOME" := "/home/dev" ]};
  w_cwd := "/home/dev/proj";
  w_console := [];
  w_spawned := []
|}.

Definition demo_entry (filename : string) : SuppressionEntry.t := {|
  SuppressionEntry.error_id := "nullPointer";
  SuppressionEntry.filename := filename;
  SuppressionEntry.line := Py.JInt 42;
  SuppressionEntry.comment := "x"
|}.

Definition demo_analyzer (options : list string)
    (suppression : option (list SuppressionEntry.t)) : AnalyzerConfig.t := {|
  AnalyzerConfig.threads := 4;
  AnalyzerConfig.output_format := "gcc";
  AnalyzerConfig.output_template := None;
  AnalyzerConfig.message_level := ["warning"; "style"];
  AnalyzerConfig.defines := ["DEBUG"];
  AnalyzerConfig.un_defines := [];
  AnalyzerConfig.standard := "c++11";
  AnalyzerConfig.platform := "unix64";
  AnalyzerConfig.on_error_exit_code := 1;
  AnalyzerConfig.includes := ["inc"];
  AnalyzerConfig.excludes := [];
  AnalyzerConfig.directories := ["src"];
  AnalyzerConfig.files := [];
  AnalyzerConfig.suppression := suppression;
  AnalyzerConfig.add_ons := true;
  AnalyzerConfig.options := options;
  AnalyzerConfig.output_dir := "out"
|}.

Definition demo_config (options : list string)
    (suppression : option (list SuppressionEntry.t)) : CppCheckConfig.t :=
  CppCheckConfig.__init__ "cfg" (demo_analyzer options suppression).

(** The same project after an earlier run left a suppression list. *)
Definition stale_world : World := with_file "cfg_suppression_list.txt" "stale" demo_world.

(** The text of the entry of [demo_entry] for the file name [fn]. *)
Definition demo_lines (fn : string) : string :=
  "// x" +:+ Py.nl +:+ "nullPointer:" +:+ fn +:+ ":42" +:+ Py.nl +:+ Py.nl.

(** The command of [demo_config] with the options [-j 2]. *)
Definition two_j_command : string :=
  "-j 2 --dump --suppressions-list=cfg_suppression_list.txt -j 4 --template="
  +:+ Py.dquote +:+ "gcc" +:+ Py.dquote
  +:+ " --enable=warning,style -DDEBUG  --std=c++11 --platform=unix64"
  +:+ " --error-exitcode=1 -Iinc  src ".

Definition demo_cppcheck (suppression : option (list SuppressionEntry.t)) : CppCheck.t :=
  CppCheck.set_configuration "cfg" (demo_config [] suppression) (CppCheck.__init__ "cppcheck").

Definition demo_formatter : ClangFormatConfig.t := {|
  ClangFormatConfig._raw_config := {|
    FormatterConfig.inplace := true;
    FormatterConfig.style := "file";
    FormatterConfig.files := ["src/a.cpp"];
    FormatterConfig.directories := []
  |}
|}.

Definition demo_formatter_run : ClangFormatter.t := {|
  ClangFormatter.config := {|
    ClangFormatConfig._raw_config := {|
      FormatterConfig.inplace := true;
      FormatterConfig.style := "file";
      FormatterConfig.files := ["a.cpp"; "b.cpp"; "c.cpp"];
      FormatterConfig.directories :=
        [{| DirSpec.path := "src"; DirSpec.recursive := true;
            DirSpec.extensions := ["*.hpp"; "*.cpp"] |}]
    |}
  |};
  ClangFormatter.working_dir := "/home/dev/proj";
  ClangFormatter.project_file_dir := "/home/dev/proj";
  ClangFormatter.clang_format_exe := Some "clang-format"
|}.

(** ** What the further properties are stated with *)

(** The configuration object once [cpp_working_dir] has been set to [val]. *)
Definition bound_to (val : string) (cfg : CppCheckConfig.t) : CppCheckConfig.t :=
  {| CppCheckConfig._name := CppCheckConfig._name cfg;
     CppCheckConfig._raw_config := CppCheckConfig._raw_config cfg;
     CppCheckConfig._results_dir :=
       os.path.join val [CppCheckConfig.output_dir cfg; CppCheckConfig.name cfg];
     CppCheckConfig._cpp_working_dir := val |}.

(** The two logs of a configuration. *)
Definition log_file (cfg : CppCheckConfig.t) : string :=
  os.path.join (CppCheckConfig.results_dir cfg) [CppCheckConfig.name cfg +:+ "_log.txt"].
Definition err_file (cfg : CppCheckConfig.t) : string :=
  os.path.join (CppCheckConfig.results_dir cfg) [CppCheckConfig.name cfg +:+ "_err.txt"].

(** [w'] differs from [w] in the contents of regular files at most: same
    directories, environment, current directory, console and processes. *)
Definition same_but_files (w w' : World) : Prop :=
  fs_dirs (w_fs w') = fs_dirs (w_fs w)
  ∧ w_environ w' = w_environ w
  ∧ w_cwd w' = w_cwd w
  ∧ w_console w' = w_console w
  ∧ w_spawned w' = w_spawned w.

(** [w'] differs from [w] in the file that the path [p] names at most. *)
Definition touches_only (p : string) (w w' : World) : Prop :=
  same_but_files w w'
  ∧ ∀ k, posix.lookup w p ≠ Some k → fs_files (w_fs w') !! k = fs_files (w_fs w) !! k.

(** The start of every command line of the formatter. *)
Definition formatter_prefix (self : ClangFormatter.t) : string :=
  default "None" (ClangFormatter.clang_format_exe self) +:+ " -verbose "
  +:+ ClangFormatConfig.inplace (ClangFormatter.config self) +:+ " "
  +:+ ClangFormatConfig.style (ClangFormatter.config self) +:+ " ".

(** The glob pattern of one extension of a directory entry, under the
    resolved directory [path]. *)
Definition search_pattern (dir_obj : DirSpec.t) (path ext : string) : string :=
  if DirSpec.recursive dir_obj then os.path.join path ["**"; ext]
  else os.path.join path [ext].

(** A host like [demo_host] whose [makedirs] fails half way. *)
Definition failing_host : Host := {|
  host_realpath := demo_realpath;
  host_realpath_isabs := demo_realpath_isabs;
  host_glob := λ _ _ _ _, [];
  host_shell := λ fs _ _ _, (Ok (0%Z, "OK", EmptyString), fs);
  host_may_write := demo_may_write;
  host_may_write_file := demo_may_write_file;
  host_makedirs := failing_makedirs;
  host_makedirs_keeps := failing_makedirs_keeps;
  host_makedirs_made := failing_makedirs_made;
  host_float := λ _, None
|}.

(** An entry whose line is the empty string. *)
Definition demo_entry_no_line (filename : string) : SuppressionEntry.t := {|
  SuppressionEntry.error_id := "unusedFunction";
  SuppressionEntry.filename := filename;
  SuppressionEntry.line := Py.JStr EmptyString;
  SuppressionEntry.comment := "whole file"
|}.

(** A parsed configuration file with two configurations, and its loader. *)
Definition demo_document : gmap string AnalyzerConfig.t :=
  {[ "cfg" := demo_analyzer [] (Some [demo_entry "src/a.cpp"]);
     "release" := demo_analyzer ["--inconclusive"] None ]}.

Definition demo_json_load (file : string) : M World (gmap string AnalyzerConfig.t) :=
  if String.eqb file "cppcheck.json" then ret demo_document else raise OSError.

(** * Verification *)

(** Unfold the monad: a computation becomes a function of the state. *)
Ltac run :=
  unfold bind, ret, raise, gets, modify, lift, print, on_world, on_self, zoom in *;
  cbn [fst snd] in *.

(** ** Strings *)

Lemma str_app_cons (a : ascii) (s t : string) : String a s +:+ t = String a (s +:+ t).
Proof. reflexivity. Qed.

Lemma str_app_nil_l (t : string) : EmptyString +:+ t = t.
Proof. reflexivity. Qed.

Lemma str_app_nil_r (s : string) : s +:+ EmptyString = s.
Proof. induction s as [|a s IH]; [reflexivity | rewrite str_app_cons, IH; reflexivity]. Qed.

Lemma str_app_assoc (a b c : string) : (a +:+ b) +:+ c = a +:+ (b +:+ c).
Proof.
  induction a as [|x a IH]; [reflexivity |].
  rewrite !str_app_cons, IH. reflexivity.
Qed.

Lemma truthy_app_l (a b : string) : Py.truthy a = true → Py.truthy (a +:+ b) = true.
Proof. destruct a; [discriminate | reflexivity]. Qed.

Lemma truthy_app_r (a b : string) : Py.truthy b = true → Py.truthy (a +:+ b) = true.
Proof. destruct a; [rewrite str_app_nil_l; auto | reflexivity]. Qed.

Lemma truthy_startswith (pre s : string) :
  Py.truthy pre = true → Py.startswith pre s = true → Py.truthy s = true.
Proof. destruct pre, s; simpl; auto; discriminate. Qed.

Lemma before_first_none (sep s : string) :
  occurs sep s = false → Py.before_first sep s = s.
Proof.
  induction s as [|a s IH]; cbn; intros [Hp Ho]%orb_false_elim; rewrite Hp.
  - reflexivity.
  - rewrite IH by exact Ho. reflexivity.
Qed.

Lemma occurs_skip (a : ascii) (s : string) :
  Ascii.eqb ":" a = false → occurs "::" (String a s) = occurs "::" s.
Proof. intros Ha. cbn [occurs Py.startswith]. rewrite Ha. reflexivity. Qed.

(** What follows a colon that closes a text does not make a double colon,
    as long as it does not start with one. *)
Lemma occurs_colon_tail (s : string) :
  occurs "::" (s +:+ ":42") = occurs "::" (s +:+ ":").
Proof.
  induction s as [|a s IH]; [reflexivity |].
  rewrite !str_app_cons. cbn [occurs]. rewrite IH. f_equal.
  cbn [Py.startswith]. destruct s; reflexivity.
Qed.

Lemma lstrip_keep (P : ascii → bool) (a : ascii) (s : string) :
  P a = false → Py.lstrip P (String a s) = String a s.
Proof. intros Ha. cbn [Py.lstrip]. rewrite Ha. reflexivity. Qed.

Lemma rstrip_keep (P : ascii → bool) (c : ascii) (s : string) :
  P c = false → Py.rstrip P (s +:+ String c EmptyString) = s +:+ String c EmptyString.
Proof.
  intros Hc. induction s as [|a s IH].
  - rewrite str_app_nil_l. cbn [Py.rstrip]. rewrite Hc. reflexivity.
  - rewrite str_app_cons. cbn [Py.rstrip]. rewrite IH.
    destruct s; reflexivity.
Qed.

(** The suppression line of a null-pointer entry at line 42, for a file
    name that brings no double colon. *)
Lemma null_pointer_line (fn : string) :
  occurs "::" (":" +:+ fn +:+ ":") = false →
  Py.strip (Ascii.eqb ":")
    (Py.before_first "::" ("nullPointer" +:+ ":" +:+ fn +:+ ":" +:+ Py.format (Py.JInt 42)))
  = "nullPointer:" +:+ fn +:+ ":42".
Proof.
  intros Hfree.
  assert (E : "nullPointer" +:+ ":" +:+ fn +:+ ":" +:+ Py.format (Py.JInt 42)
              = ("nullPointer:" +:+ fn +:+ ":4") +:+ "2")
    by (rewrite !str_app_assoc; reflexivity).
  rewrite before_first_none.
  - rewrite E. unfold Py.strip.
    change (("nullPointer:" +:+ fn +:+ ":4") +:+ "2")
      with (String "n" (("ullPointer:" +:+ fn +:+ ":4") +:+ "2")) at 1.
    rewrite lstrip_keep by reflexivity.
    change (String "n" (("ullPointer:" +:+ fn +:+ ":4") +:+ "2"))
      with (("nullPointer:" +:+ fn +:+ ":4") +:+ "2").
    rewrite rstrip_keep by reflexivity.
    rewrite !str_app_assoc. reflexivity.
  - change ("nullPointer" +:+ ":" +:+ fn +:+ ":" +:+ Py.format (Py.JInt 42))
      with (String "n" (String "u" (String "l" (String "l" (String "P" (String "o"
             (String "i" (String "n" (String "t" (String "e" (String "r"
               (":" +:+ fn +:+ ":42")))))))))))).
    rewrite !occurs_skip by reflexivity.
    rewrite <- (str_app_assoc ":" fn ":42"), occurs_colon_tail, str_app_assoc.
    exact Hfree.
Qed.


(** A text that a colon can follow without making a double colon does
    not end in a colon. *)
Lemma rstrip_colon_free (s : string) :
  occurs "::" (s +:+ ":") = false → Py.rstrip (Ascii.eqb ":") s = s.
Proof.
  induction s as [|a s IH]; [reflexivity |].
  rewrite str_app_cons. cbn [occurs]. intros [Hp Ho]%orb_false_elim.
  cbn [Py.rstrip]. rewrite IH by exact Ho.
  destruct s as [|b s]; [| reflexivity].
  rewrite str_app_nil_l in Hp. cbn [Py.startswith] in Hp.
  change (Ascii.eqb ":" ":") with true in Hp.
  rewrite !andb_true_r in Hp. rewrite Hp. reflexivity.
Qed.

(** Where a double colon occurs, the text before the first one is
    followed by it, and a colon after that text makes no double colon:
    the cut is at the first. *)
Lemma before_first_cut (s : string) :
  occurs "::" s = true →
  ∃ tail, s = Py.before_first "::" s +:+ "::" +:+ tail
          ∧ occurs "::" (Py.before_first "::" s +:+ ":") = false.
Proof.
  induction s as [|a s IH]; [discriminate |].
  cbn [occurs Py.before_first]. destruct (Py.startswith "::" (String a s)) eqn:Hp.
  - intros _. cbn [Py.startswith] in Hp.
    destruct (Ascii.eqb_spec ":" a) as [<- |]; [| discriminate].
    destruct s as [|b s]; [discriminate |].
    destruct (Ascii.eqb_spec ":" b) as [<- |]; [| discriminate].
    exists s. split; reflexivity.
  - cbn [orb]. intros Ho. destruct (IH Ho) as (tail & Hs & Hfree).
    exists tail. split.
    + rewrite str_app_cons. f_equal. exact Hs.
    + rewrite str_app_cons. cbn [occurs]. rewrite Hfree, orb_false_r.
      rewrite Hs in Hp. cbn [Py.startswith] in Hp |- *.
      destruct (Ascii.eqb ":" a); [| reflexivity]. cbn [andb] in Hp |- *.
      destruct (Py.before_first "::" s) as [|b bf].
      * rewrite str_app_nil_l in Hp. cbn in Hp. discriminate.
      * rewrite str_app_cons in Hp |- *. exact Hp.
Qed.

(** The suppression line of a null-pointer entry at line 42, for a file
    name that brings a double colon: the line ends before the first. *)
Lemma null_pointer_line_cut (fn : string) :
  occurs "::" (":" +:+ fn +:+ ":") = true →
  ∃ tail,
    "nullPointer:" +:+ fn +:+ ":42"
    = Py.strip (Ascii.eqb ":")
        (Py.before_first "::" ("nullPointer" +:+ ":" +:+ fn +:+ ":" +:+ Py.format (Py.JInt 42)))
      +:+ "::" +:+ tail
    ∧ occurs "::"
        (Py.strip (Ascii.eqb ":")
           (Py.before_first "::"
              ("nullPointer" +:+ ":" +:+ fn +:+ ":" +:+ Py.format (Py.JInt 42)))
         +:+ ":") = false.
Proof.
  intros Hocc.
  assert (Hs : occurs "::" ("nullPointer" +:+ ":" +:+ fn +:+ ":" +:+ Py.format (Py.JInt 42))
               = true).
  { change ("nullPointer" +:+ ":" +:+ fn +:+ ":" +:+ Py.format (Py.JInt 42))
      with (String "n" (String "u" (String "l" (String "l" (String "P" (String "o"
             (String "i" (String "n" (String "t" (String "e" (String "r"
               (":" +:+ fn +:+ ":42")))))))))))).
    rewrite !occurs_skip by reflexivity.
    rewrite <- (str_app_assoc ":" fn ":42"), occurs_colon_tail, str_app_assoc.
    exact Hocc. }
  destruct (before_first_cut _ Hs) as (tail & Heq & Hfree).
  set (full := "nullPointer" +:+ ":" +:+ fn +:+ ":" +:+ Py.format (Py.JInt 42)) in *.
  assert (Hstrip : Py.strip (Ascii.eqb ":") (Py.before_first "::" full)
                   = Py.before_first "::" full).
  { unfold Py.strip.
    assert (Hhead : ∃ rest, Py.before_first "::" full = String "n" rest).
    { subst full. eexists. reflexivity. }
    destruct Hhead as [rest Hrest]. rewrite Hrest at 1.
    rewrite lstrip_keep by reflexivity. rewrite <- Hrest.
    apply rstrip_colon_free. exact Hfree. }
  rewrite Hstrip. exists tail. split; [| exact Hfree].
  rewrite <- Heq. subst full. reflexivity.
Qed.

(** ** Tokens of a command line *)

Lemma split_char_nonempty (c : ascii) (s : string) : Py.split_char c s ≠ [].
Proof.
  destruct s as [|a s]; cbn; [discriminate |].
  destruct (Ascii.eqb a c); [discriminate |].
  destruct (Py.split_char c s); discriminate.
Qed.

Lemma split_char_app (c : ascii) (a b : string) :
  Py.split_char c (a +:+ String c b) = Py.split_char c a ++ Py.split_char c b.
Proof.
  induction a as [|x a IH].
  - rewrite str_app_nil_l. cbn. rewrite Ascii.eqb_refl. reflexivity.
  - rewrite str_app_cons. cbn [Py.split_char]. rewrite IH.
    destruct (Ascii.eqb x c); [reflexivity |].
    pose proof (split_char_nonempty c a) as Hne.
    destruct (Py.split_char c a); [contradiction | reflexivity].
Qed.

Lemma split_char_none (c : ascii) (s : string) :
  os.path.has_char c s = false → Py.split_char c s = [s].
Proof.
  induction s as [|a s IH]; [reflexivity |].
  cbn. intros [Ha Hs]%orb_false_elim. rewrite Ha, IH by exact Hs. reflexivity.
Qed.

Lemma count_flag_app (flag a b : string) :
  count_flag flag (a +:+ " " +:+ b) = (count_flag flag a + count_flag flag b)%nat.
Proof.
  unfold count_flag.
  change (a +:+ " " +:+ b) with (a +:+ String " " b).
  rewrite split_char_app, count_occ_app. reflexivity.
Qed.

Lemma string_of_uint_numeric (d : Decimal.uint) : numeric (NilEmpty.string_of_uint d) = true.
Proof. induction d; cbn [NilEmpty.string_of_uint numeric]; try rewrite IHd; reflexivity. Qed.

Lemma str_of_int_numeric (z : Z) : numeric (Py.str_of_int z) = true.
Proof.
  unfold Py.str_of_int, NilZero.string_of_int, NilZero.string_of_uint.
  destruct (Z.to_int z) as [d|d]; destruct d;
    cbn [numeric]; try rewrite string_of_uint_numeric; try reflexivity;
    apply (string_of_uint_numeric (_ d)).
Qed.

Lemma numeric_has_char (c : ascii) (s : string) :
  (Ascii.eqb c "-" || (Nat.leb 48 (nat_of_ascii c) && Nat.leb (nat_of_ascii c) 57)) = false →
  numeric s = true → os.path.has_char c s = false.
Proof.
  intros Hc. induction s as [|a s IH]; [reflexivity |].
  cbn [numeric os.path.has_char]. intros [Ha Hs]%andb_prop.
  rewrite IH by exact Hs. rewrite orb_false_r.
  destruct (Ascii.eqb_spec a c) as [-> | Hne]; [| reflexivity].
  rewrite Hc in Ha. discriminate.
Qed.

(** A printed integer is one token, and not the thread flag. *)
Lemma count_flag_str_of_int (z : Z) : count_flag "-j" (Py.str_of_int z) = 0%nat.
Proof.
  pose proof (str_of_int_numeric z) as Hn.
  unfold count_flag.
  rewrite split_char_none by (apply numeric_has_char; [reflexivity | exact Hn]).
  cbn [count_occ]. destruct (string_dec (Py.str_of_int z) "-j") as [E|]; [| reflexivity].
  rewrite E in Hn. discriminate.
Qed.

(** ** Paths *)

Lemma join1_truthy_l (a b : string) : Py.truthy a = true → Py.truthy (os.path.join1 a b) = true.
Proof.
  intros Ha. unfold os.path.join1.
  destruct (Py.startswith "/" b) eqn:E.
  - exact (truthy_startswith "/" b eq_refl E).
  - destruct (_ || _); apply truthy_app_l; exact Ha.
Qed.

Lemma join1_truthy_r (a b : string) : Py.truthy b = true → Py.truthy (os.path.join1 a b) = true.
Proof.
  intros Hb. unfold os.path.join1.
  destruct (Py.startswith "/" b); [exact Hb |].
  destruct (_ || _); repeat apply truthy_app_r; exact Hb.
Qed.

Lemma join_truthy (cs : list string) :
  ∀ c, Py.truthy c = true → Py.truthy (os.path.join c cs) = true.
Proof.
  unfold os.path.join. induction cs as [|b cs IH]; intros c Hc; [exact Hc |].
  cbn [fold_left]. apply IH, join1_truthy_l, Hc.
Qed.

(** [relpath] never returns the empty string. *)
Lemma relpath_truthy (w : World) (p : option string) (start path : string) :
  os.path.relpath w p start = Ok path → Py.truthy path = true.
Proof.
  unfold os.path.relpath. destruct p as [p|]; [| discriminate].
  destruct (Py.truthy p); [| discriminate].
  set (sl := filter _ (Py.split_char "/" (os.path.abspath w start))).
  set (pl := filter _ (Py.split_char "/" (os.path.abspath w p))).
  set (i := length (os.path.common_comps sl pl)).
  assert (Hall : Forall (λ x, Py.truthy x = true) (replicate (length sl - i) ".." ++ drop i pl)).
  { apply Forall_app. split.
    - apply Forall_replicate. reflexivity.
    - apply Forall_drop. subst pl. apply list.Forall_forall.
      intros x [Hx _]%list_elem_of_filter. apply Is_true_true. exact Hx. }
  destruct (replicate _ _ ++ drop i pl) as [|c cs]; intros [= <-]; [reflexivity |].
  inversion Hall; subst. apply join_truthy. assumption.
Qed.

(** [relpath] returns for every path that is not empty. *)
Lemma relpath_returns (w : World) (p start : string) :
  Py.truthy p = true → ∃ path, os.path.relpath w (Some p) start = Ok path.
Proof.
  intros Hp. unfold os.path.relpath. rewrite Hp.
  destruct (_ ++ _); eauto.
Qed.

(** ** The file a suppression list is written to *)

Section SuppressionFile.
Context `{Host}.

Lemma with_file_key (p k text : string) (w : World) :
  posix.lookup w p = Some k → with_file p text w = with_key k text w.
Proof. unfold with_file. intros ->. reflexivity. Qed.

(** A file that may be written is one that the path leads to. *)
Lemma may_write_lookup (p : string) (w : World) :
  host_may_write (w_fs w) (w_cwd w) p = true → ∃ k, posix.lookup w p = Some k.
Proof.
  intros Hm. apply host_may_write_file in Hm.
  unfold posix.creatable in Hm. unfold posix.lookup.
  destruct (posix.resolve _ _ _) as [k|]; [eauto | discriminate].
Qed.

Lemma open_w_ok (p : string) (w : World) :
  host_may_write (w_fs w) (w_cwd w) p = true →
  ∃ k, posix.lookup w p = Some k ∧ open_w p w = (Ok k, with_key k EmptyString w).
Proof.
  intros Hm. destruct (may_write_lookup p w Hm) as [k Hk].
  exists k. split; [exact Hk |]. unfold open_w. rewrite Hk, Hm. reflexivity.
Qed.

Lemma open_w_refused (p : string) (w : World) :
  host_may_write (w_fs w) (w_cwd w) p = false →
  open_w p w = (Raise OSError, w).
Proof. intros Hm. unfold open_w. rewrite Hm. destruct (posix.lookup w p); reflexivity. Qed.

Lemma write_with_key (k text t : string) (w : World) :
  write k t (with_key k text w) = (Ok tt, with_key k (text +:+ t) w).
Proof.
  unfold write, modify, with_key. cbn.
  rewrite lookup_insert_eq, insert_insert_eq. reflexivity.
Qed.

Lemma isfile_key (k t p : string) (w : World) :
  os.path.isfile (with_key k t w) p
  = match posix.lookup w p with
    | Some f => bool_decide (f = k) || bool_decide (is_Some (fs_files (w_fs w) !! f))
    | None => false
    end.
Proof.
  unfold os.path.isfile.
  change (posix.lookup (with_key k t w) p) with (posix.lookup w p).
  destruct (posix.lookup w p) as [f|]; [| reflexivity].
  cbn [with_key set_files set_fs w_fs fs_files].
  destruct (decide (f = k)) as [-> | Hne].
  - rewrite lookup_insert_eq, (bool_decide_eq_true_2 (k = k)) by reflexivity.
    apply bool_decide_eq_true_2. eauto.
  - rewrite lookup_insert_ne by congruence.
    rewrite (bool_decide_eq_false_2 (f = k)) by exact Hne. reflexivity.
Qed.

(** Whether a path names a file does not depend on what the list holds. *)
Lemma isfile_with_key (k t1 t2 p : string) (w : World) :
  os.path.isfile (with_key k t1 w) p = os.path.isfile (with_key k t2 w) p.
Proof. rewrite !isfile_key. reflexivity. Qed.

Lemma isfile_with_key_old (k t p : string) (w : World) :
  os.path.isfile w p = true → os.path.isfile (with_key k t w) p = true.
Proof.
  rewrite isfile_key. unfold os.path.isfile.
  destruct (posix.lookup w p); [| discriminate].
  intros ->. apply orb_true_r.
Qed.

Lemma isfile_with_key_other (k t p : string) (w : World) :
  posix.lookup w p ≠ Some k → os.path.isfile (with_key k t w) p = os.path.isfile w p.
Proof.
  intros Hne. rewrite isfile_key. unfold os.path.isfile.
  destruct (posix.lookup w p) as [f|]; [| reflexivity].
  rewrite bool_decide_eq_false_2 by congruence. reflexivity.
Qed.

Lemma entry_valid_with_key (k t1 t2 : string) (w : World) (item : SuppressionEntry.t) :
  entry_valid (with_key k t1 w) item = entry_valid (with_key k t2 w) item.
Proof. unfold entry_valid. apply isfile_with_key. Qed.

(** One round of the loop, on the open list: a valid entry appends its
    text, an invalid one raises and appends nothing. *)
Lemma write_entry_with_key (k text : string) (w : World) (item : SuppressionEntry.t) :
  CppCheckConfig.write_entry k item (with_key k text w)
  = if entry_valid (with_key k EmptyString w) item
    then (Ok tt, with_key k (text +:+ entry_text w item) w)
    else (Raise (RuntimeError
                   ("Invalid path: "
                    +:+ os.path.expandvars w (SuppressionEntry.filename item))),
          with_key k text w).
Proof.
  unfold CppCheckConfig.write_entry, bind, gets, raise.
  rewrite (entry_valid_with_key k EmptyString text).
  unfold entry_valid.
  change (os.path.expandvars (with_key k text w)) with (os.path.expandvars w).
  destruct (os.path.isfile _ _); cbn [negb]; [|reflexivity].
  rewrite !write_with_key.
  unfold entry_text. rewrite !str_app_assoc. reflexivity.
Qed.

Lemma entries_text_cons (w : World) (item : SuppressionEntry.t) (items : list SuppressionEntry.t) :
  entries_text w (item :: items) = entry_text w item +:+ entries_text w items.
Proof.
  unfold entries_text. cbn. destruct (map _ items) eqn:E; cbn; [|reflexivity].
  rewrite str_app_nil_r. reflexivity.
Qed.

Lemma entries_text_app (w : World) (l1 l2 : list SuppressionEntry.t) :
  entries_text w (l1 ++ l2) = entries_text w l1 +:+ entries_text w l2.
Proof.
  induction l1 as [|x l1 IH]; [reflexivity |].
  rewrite <- app_comm_cons, !entries_text_cons, IH, str_app_assoc. reflexivity.
Qed.

(** The loop over entries that are all valid appends the text of each. *)
Lemma loop_all_valid (k : string) (w : World) (items : list SuppressionEntry.t) :
  ∀ text,
    Forall (λ item, entry_valid (with_key k EmptyString w) item = true) items →
    for_in items (CppCheckConfig.write_entry k) (with_key k text w)
    = (Ok tt, with_key k (text +:+ entries_text w items) w).
Proof.
  induction items as [|item items IH]; intros text Hall.
  - cbn. unfold ret, entries_text. cbn. rewrite str_app_nil_r. reflexivity.
  - inversion Hall as [|? ? Hv Hrest]; subst.
    cbn [for_in]. unfold bind. rewrite write_entry_with_key, Hv.
    rewrite IH by assumption.
    rewrite entries_text_cons, str_app_assoc. reflexivity.
Qed.

(** The loop stops at the first invalid entry: the entries before it are
    written, the exception names its expanded path. *)
Lemma loop_stops (k : string) (w : World) (pre post : list SuppressionEntry.t)
    (bad : SuppressionEntry.t) :
  ∀ text,
    Forall (λ item, entry_valid (with_key k EmptyString w) item = true) pre →
    entry_valid (with_key k EmptyString w) bad = false →
    for_in (pre ++ bad :: post) (CppCheckConfig.write_entry k) (with_key k text w)
    = (Raise (RuntimeError
                ("Invalid path: "
                 +:+ os.path.expandvars w (SuppressionEntry.filename bad))),
       with_key k (text +:+ entries_text w pre) w).
Proof.
  induction pre as [|item pre IH]; intros text Hall Hbad.
  - cbn [app for_in]. unfold bind. rewrite write_entry_with_key, Hbad.
    unfold entries_text. cbn. rewrite str_app_nil_r. reflexivity.
  - inversion Hall as [|? ? Hv Hrest]; subst.
    rewrite <- app_comm_cons. cbn [for_in]. unfold bind.
    rewrite write_entry_with_key, Hv.
    rewrite IH by assumption.
    rewrite entries_text_cons, str_app_assoc. reflexivity.
Qed.

(** The loop over any entries: it writes the text of the entries it gets
    through, which are all of them when all are valid. *)
Lemma loop_written (k : string) (w : World) (items : list SuppressionEntry.t) :
  ∀ text, ∃ written,
    written `prefix_of` items
    ∧ (for_in items (CppCheckConfig.write_entry k) (with_key k text w)).2
      = with_key k (text +:+ entries_text w written) w
    ∧ (Forall (λ item, entry_valid (with_key k EmptyString w) item = true) items →
       written = items
       ∧ (for_in items (CppCheckConfig.write_entry k) (with_key k text w)).1 = Ok tt).
Proof.
  induction items as [|item items IH]; intros text.
  - exists []. split; [reflexivity |]. split; [| auto].
    cbn. unfold entries_text. cbn. rewrite str_app_nil_r. reflexivity.
  - cbn [for_in]. unfold bind. rewrite write_entry_with_key.
    destruct (entry_valid (with_key k EmptyString w) item) eqn:Hv.
    + destruct (IH (text +:+ entry_text w item)) as (written & Hpre & Hw & Hall).
      exists (item :: written). split; [apply prefix_cons, Hpre |]. split.
      * rewrite Hw, entries_text_cons, str_app_assoc. reflexivity.
      * intros Hvalid. inversion Hvalid as [|? ? _ Hrest]; subst.
        destruct (Hall Hrest) as [-> Hok]. split; [reflexivity | exact Hok].
    + exists []. split; [apply prefix_nil |]. split.
      * cbn [snd]. unfold entries_text. cbn. rewrite str_app_nil_r. reflexivity.
      * intros Hvalid. inversion Hvalid as [|? ? Hv' _]; subst. congruence.
Qed.

Lemma for_in_app {S A} (l1 l2 : list A) (body : A → M S unit) (s : S) :
  for_in (l1 ++ l2) body s = (for_in l1 body ;; for_in l2 body) s.
Proof.
  revert s. induction l1 as [|x l1 IH]; intros s.
  - reflexivity.
  - cbn [app for_in]. unfold bind. destruct (body x s) as [[[]|e] s1]; [| reflexivity].
    rewrite IH. reflexivity.
Qed.

Lemma entry_valid_opened (p : string) (w : World) (item : SuppressionEntry.t) :
  entry_valid w item = true → entry_valid (with_file p EmptyString w) item = true.
Proof.
  unfold with_file. destruct (posix.lookup w p) as [k|]; [| auto].
  unfold entry_valid. apply isfile_with_key_old.
Qed.

(** An entry that names no file names none once the list is open, unless
    it names the list. *)
Lemma entry_invalid_opened (p : string) (w : World) (item : SuppressionEntry.t) :
  entry_valid w item = false →
  same_file w (os.path.expandvars w (SuppressionEntry.filename item)) p = false →
  entry_valid (with_file p EmptyString w) item = false.
Proof.
  unfold with_file, same_file. destruct (posix.lookup w p) as [k|] eqn:Hp; [| auto].
  unfold entry_valid. intros Hv Hsame.
  change (os.path.expandvars (with_key k EmptyString w)) with (os.path.expandvars w).
  rewrite isfile_with_key_other; [exact Hv |].
  intros Hf. rewrite Hf in Hsame. apply bool_decide_eq_false in Hsame. contradiction.
Qed.

(** An entry without a file name is never valid: the empty path names
    no file, whatever the file system holds. *)
Lemma entry_empty_invalid (w : World) (item : SuppressionEntry.t) :
  SuppressionEntry.filename item = EmptyString → entry_valid w item = false.
Proof. unfold entry_valid. intros ->. reflexivity. Qed.

(** [generate_suppression_list] when the list cannot be opened. *)
Lemma generate_refused (self : CppCheckConfig.t) (w : World)
    (item : SuppressionEntry.t) (items : list SuppressionEntry.t) :
  AnalyzerConfig.suppression (CppCheckConfig._raw_config self) = Some (item :: items) →
  host_may_write (w_fs w) (w_cwd w) (suppression_file self) = false →
  CppCheckConfig.generate_suppression_list self w = (Raise OSError, w).
Proof.
  intros Hs Hm. unfold CppCheckConfig.generate_suppression_list. rewrite Hs.
  fold (suppression_file self). unfold bind at 1 2.
  rewrite open_w_refused by exact Hm. reflexivity.
Qed.

(** [generate_suppression_list] once the list is open: the loop, and the
    relative path when the loop came through. *)
Lemma generate_opened (self : CppCheckConfig.t) (w : World) (k : string)
    (items : list SuppressionEntry.t) :
  AnalyzerConfig.suppression (CppCheckConfig._raw_config self) = Some items →
  items ≠ [] →
  host_may_write (w_fs w) (w_cwd w) (suppression_file self) = true →
  posix.lookup w (suppression_file self) = Some k →
  CppCheckConfig.generate_suppression_list self w
  = match for_in items (CppCheckConfig.write_entry k) (with_key k EmptyString w) with
    | (Ok _, w') =>
        (os.path.relpath w' (Some (suppression_file self))
           (os.path.common_chars (w_cwd w') (suppression_file self)), w')
    | (Raise e, w') => (Raise e, w')
    end.
Proof.
  intros Hs Hne Hm Hk.
  destruct (open_w_ok _ _ Hm) as (k' & Hk' & Hopen).
  rewrite Hk in Hk'. injection Hk' as <-.
  unfold CppCheckConfig.generate_suppression_list. rewrite Hs.
  fold (suppression_file self).
  destruct items as [|item items]; [contradiction |].
  unfold bind at 1 2. rewrite Hopen. unfold bind at 1.
  destruct (for_in _ _ _) as [[[]|e] w']; reflexivity.
Qed.

(** [generate_suppression_list] up to the first invalid entry. *)
Lemma generate_stops (self : CppCheckConfig.t) (w : World)
    (pre post : list SuppressionEntry.t) (bad : SuppressionEntry.t) :
  AnalyzerConfig.suppression (CppCheckConfig._raw_config self) = Some (pre ++ bad :: post) →
  host_may_write (w_fs w) (w_cwd w) (suppression_file self) = true →
  Forall (λ item, entry_valid (with_file (suppression_file self) EmptyString w) item = true) pre →
  entry_valid (with_file (suppression_file self) EmptyString w) bad = false →
  CppCheckConfig.generate_suppression_list self w
  = (Raise (RuntimeError
              ("Invalid path: " +:+ os.path.expandvars w (SuppressionEntry.filename bad))),
     with_file (suppression_file self) (entries_text w pre) w).
Proof.
  intros Hs Hm Hpre Hbad.
  destruct (may_write_lookup _ _ Hm) as [k Hk].
  rewrite (with_file_key _ k) in * by exact Hk.
  rewrite (generate_opened self w k _ Hs) by (try assumption; destruct pre; discriminate).
  rewrite (loop_stops k w pre post bad EmptyString Hpre Hbad). reflexivity.
Qed.

(** [generate_suppression_list] over entries that are all valid: the list
    holds the text of each, and the result is the relative path. *)
Lemma generate_all_valid (self : CppCheckConfig.t) (w : World)
    (items : list SuppressionEntry.t) :
  AnalyzerConfig.suppression (CppCheckConfig._raw_config self) = Some items →
  items ≠ [] →
  host_may_write (w_fs w) (w_cwd w) (suppression_file self) = true →
  Forall (λ item, entry_valid (with_file (suppression_file self) EmptyString w) item = true) items →
  CppCheckConfig.generate_suppression_list self w
  = (os.path.relpath w (Some (suppression_file self))
       (os.path.common_chars (w_cwd w) (suppression_file self)),
     with_file (suppression_file self) (entries_text w items) w).
Proof.
  intros Hs Hne Hm Hall.
  destruct (may_write_lookup _ _ Hm) as [k Hk].
  rewrite (with_file_key _ k) in * by exact Hk.
  rewrite (generate_opened self w k _ Hs Hne Hm Hk).
  rewrite (loop_all_valid k w items EmptyString Hall). reflexivity.
Qed.

End SuppressionFile.

Section Analyzer.
Context `{Host}.

(** ** The output template *)

(** C10: the output-format fragment quotes the user template whenever one
    is given and is not empty, and the [output_format] field otherwise. *)
Theorem output_format_template_priority (self : CppCheckConfig.t) :
  (∀ tpl, AnalyzerConfig.output_template (CppCheckConfig._raw_config self) = Some tpl →
          tpl ≠ EmptyString →
          CppCheckConfig.output_format self
          = "--template=" +:+ Py.dquote +:+ tpl +:+ Py.dquote)
  ∧ (AnalyzerConfig.output_template (CppCheckConfig._raw_config self) = None
     ∨ AnalyzerConfig.output_template (CppCheckConfig._raw_config self) = Some EmptyString →
     CppCheckConfig.output_format self
     = "--template=" +:+ Py.dquote
       +:+ AnalyzerConfig.output_format (CppCheckConfig._raw_config self) +:+ Py.dquote).
Proof.
  unfold CppCheckConfig.output_format. split.
  - intros tpl -> Hne. destruct tpl; [contradiction | reflexivity].
  - intros [-> | ->]; reflexivity.
Qed.

(** ** An empty or missing suppression list *)

(** C1, as the code behaves: with no suppression entries the output path
    stays [None], [os.path.commonprefix] is handed that [None] and raises
    [TypeError]; neither [generate_suppression_list] nor [build_command]
    returns, and the world is left as it was. *)
Theorem generate_suppression_list_empty_raises (self : CppCheckConfig.t) (w : World) :
  AnalyzerConfig.suppression (CppCheckConfig._raw_config self) = None
  ∨ AnalyzerConfig.suppression (CppCheckConfig._raw_config self) = Some [] →
  CppCheckConfig.generate_suppression_list self w = (Raise TypeError, w)
  ∧ CppCheckConfig.build_command self w = (Raise TypeError, w).
Proof.
  intros Hs.
  assert (Hg : CppCheckConfig.generate_suppression_list self w = (Raise TypeError, w)).
  { unfold CppCheckConfig.generate_suppression_list.
    destruct Hs as [-> | ->]; reflexivity. }
  split; [exact Hg |].
  unfold CppCheckConfig.build_command, bind. rewrite Hg. reflexivity.
Qed.

(** ** Suppression entries *)

Lemma suppression_file_truthy (self : CppCheckConfig.t) :
  Py.truthy (suppression_file self) = true.
Proof.
  unfold suppression_file, os.path.join. cbn [fold_left].
  apply join1_truthy_r, truthy_app_r. reflexivity.
Qed.

Lemma bind_ok_inv {S A B} (m : M S A) (k : A → M S B) (s s' : S) (b : B) :
  bind m k s = (Ok b, s') → ∃ a s1, m s = (Ok a, s1) ∧ k a s1 = (Ok b, s').
Proof.
  unfold bind. destruct (m s) as [[a|e] s1]; [eauto | discriminate].
Qed.

(** Whatever [generate_suppression_list] returns is not empty. *)
Lemma generate_returns_truthy (self : CppCheckConfig.t) (w w' : World) (path : string) :
  CppCheckConfig.generate_suppression_list self w = (Ok path, w') →
  Py.truthy path = true.
Proof.
  unfold CppCheckConfig.generate_suppression_list. intros Hg.
  apply bind_ok_inv in Hg as (act & w1 & _ & Hg).
  apply bind_ok_inv in Hg as (cwd & w2 & _ & Hg).
  apply bind_ok_inv in Hg as (start & w3 & _ & Hg).
  apply bind_ok_inv in Hg as (w4 & w5 & _ & Hg).
  unfold lift in Hg. injection Hg as Hr _.
  exact (relpath_truthy _ _ _ _ Hr).
Qed.

(** C2, amended: at an entry whose expanded file name is not empty and
    names neither an existing file nor, under whatever spelling, the list
    itself, after entries that all name existing files, the function raises
    [RuntimeError] with that name.  By then the list has been opened for
    writing, so it exists and holds the text of the entries before that
    one, and nothing else.  Only when the list cannot be opened is
    nothing written: the function raises [OSError]. *)
Theorem generate_suppression_list_invalid_path
    (self : CppCheckConfig.t) (w : World)
    (pre post : list SuppressionEntry.t) (bad : SuppressionEntry.t) :
  AnalyzerConfig.suppression (CppCheckConfig._raw_config self) = Some (pre ++ bad :: post) →
  Forall (λ item, entry_valid w item = true) pre →
  Py.truthy (os.path.expandvars w (SuppressionEntry.filename bad)) = true →
  entry_valid w bad = false →
  same_file w (os.path.expandvars w (SuppressionEntry.filename bad)) (suppression_file self)
  = false →
  CppCheckConfig.generate_suppression_list self w
  = if host_may_write (w_fs w) (w_cwd w) (suppression_file self)
    then (Raise (RuntimeError
                   ("Invalid path: "
                    +:+ os.path.expandvars w (SuppressionEntry.filename bad))),
          with_file (suppression_file self) (entries_text w pre) w)
    else (Raise OSError, w).
Proof.
  intros Hs Hpre _ Hbad Hne.
  destruct (host_may_write _ _ _) eqn:Hm.
  - apply (generate_stops self w pre post bad Hs Hm).
    + eapply Forall_impl; [exact Hpre |]. intros item. apply entry_valid_opened.
    + apply entry_invalid_opened; assumption.
  - destruct pre as [|item pre]; eapply generate_refused; eauto.
Qed.

(** C5, as the code behaves: an entry whose file name is empty is
    rejected like any other missing file.  The empty path names no file,
    so the function raises [RuntimeError] at that entry and writes no
    line for it; the code that would shorten the line is not reached. *)
Theorem empty_filename_raises
    (self : CppCheckConfig.t) (w : World)
    (pre post : list SuppressionEntry.t) (bad : SuppressionEntry.t) :
  AnalyzerConfig.suppression (CppCheckConfig._raw_config self) = Some (pre ++ bad :: post) →
  Forall (λ item, entry_valid w item = true) pre →
  SuppressionEntry.filename bad = EmptyString →
  CppCheckConfig.generate_suppression_list self w
  = if host_may_write (w_fs w) (w_cwd w) (suppression_file self)
    then (Raise (RuntimeError "Invalid path: "),
          with_file (suppression_file self) (entries_text w pre) w)
    else (Raise OSError, w).
Proof.
  intros Hs Hpre Hbad.
  destruct (host_may_write _ _ _) eqn:Hm.
  - rewrite (generate_stops self w pre post bad Hs Hm).
    + rewrite Hbad. reflexivity.
    + eapply Forall_impl; [exact Hpre |]. intros item. apply entry_valid_opened.
    + apply entry_empty_invalid, Hbad.
  - destruct pre as [|item pre]; eapply generate_refused; eauto.
Qed.

(** C4, amended: for a null-pointer entry at line 42 with comment x that
    names an existing file, after entries that all name existing files, the
    list receives three lines behind the text of those entries: the comment
    line, the suppression line and an empty line.  What follows them is the
    text of the later entries as far as the loop gets, all of them when
    they are valid; the three lines are there also when a later entry makes
    the function raise.  The suppression line has the file name as
    expanded (it is not made absolute) when the name brings no double
    colon, neither inside nor with the colons put around it; otherwise it
    is what stands before the first double colon. *)
Theorem suppression_entry_lines
    (self : CppCheckConfig.t) (w : World)
    (pre post : list SuppressionEntry.t) (item : SuppressionEntry.t) :
  AnalyzerConfig.suppression (CppCheckConfig._raw_config self) = Some (pre ++ item :: post) →
  Forall (λ item, entry_valid w item = true) pre →
  entry_valid w item = true →
  host_may_write (w_fs w) (w_cwd w) (suppression_file self) = true →
  SuppressionEntry.error_id item = "nullPointer" →
  SuppressionEntry.line item = Py.JInt 42 →
  SuppressionEntry.comment item = "x" →
  ∃ line written,
    written `prefix_of` post
    ∧ (CppCheckConfig.generate_suppression_list self w).2
      = with_file (suppression_file self)
          (entries_text w pre
           +:+ ("// x" +:+ Py.nl +:+ line +:+ Py.nl +:+ Py.nl)
           +:+ entries_text w written) w
    ∧ (Forall (λ item, entry_valid w item = true) post →
       written = post
       ∧ ∃ path, (CppCheckConfig.generate_suppression_list self w).1 = Ok path)
    ∧ (occurs "::" (":" +:+ os.path.expandvars w (SuppressionEntry.filename item) +:+ ":")
       = false →
       line = "nullPointer:" +:+ os.path.expandvars w (SuppressionEntry.filename item)
              +:+ ":42")
    ∧ (occurs "::" (":" +:+ os.path.expandvars w (SuppressionEntry.filename item) +:+ ":")
       = true →
       ∃ tail,
         "nullPointer:" +:+ os.path.expandvars w (SuppressionEntry.filename item) +:+ ":42"
         = line +:+ "::" +:+ tail
         ∧ occurs "::" (line +:+ ":") = false).
Proof.
  intros Hs Hpre Hitem Hm Hid Hline Hcomment.
  set (fn := os.path.expandvars w (SuppressionEntry.filename item)).
  set (line := Py.strip (Ascii.eqb ":")
                 (Py.before_first "::"
                    ("nullPointer" +:+ ":" +:+ fn +:+ ":" +:+ Py.format (Py.JInt 42)))).
  destruct (may_write_lookup _ _ Hm) as [k Hk].
  assert (Hopened : Forall (λ e, entry_valid (with_key k EmptyString w) e = true)
                      (pre ++ [item])).
  { apply Forall_app. split; [| repeat constructor].
    - eapply Forall_impl; [exact Hpre |]. intros e He.
      rewrite <- (with_file_key _ k EmptyString w Hk). apply entry_valid_opened, He.
    - rewrite <- (with_file_key _ k EmptyString w Hk). apply entry_valid_opened, Hitem. }
  assert (Htext : entries_text w (pre ++ [item])
                  = entries_text w pre +:+ ("// x" +:+ Py.nl +:+ line +:+ Py.nl +:+ Py.nl)).
  { rewrite entries_text_app, entries_text_cons. f_equal.
    unfold entries_text. cbn [map String.concat]. rewrite str_app_nil_r.
    unfold entry_text. rewrite Hid, Hline, Hcomment. fold fn. fold line.
    reflexivity. }
  destruct (loop_written k w post (entries_text w (pre ++ [item])))
    as (written & Hprefix & Hworld & Hall).
  assert (Hloop : for_in (pre ++ item :: post) (CppCheckConfig.write_entry k)
                    (with_key k EmptyString w)
                  = for_in post (CppCheckConfig.write_entry k)
                      (with_key k (entries_text w (pre ++ [item])) w)).
  { replace (pre ++ item :: post) with ((pre ++ [item]) ++ post)
      by (rewrite <- app_assoc; reflexivity).
    rewrite for_in_app. unfold bind.
    rewrite (loop_all_valid k w (pre ++ [item]) EmptyString Hopened). reflexivity. }
  exists line, written. split; [exact Hprefix |].
  rewrite (generate_opened self w k _ Hs) by (try assumption; destruct pre; discriminate).
  rewrite Hloop, (with_file_key _ k _ w Hk).
  destruct (for_in post _ _) as [r w'] eqn:Eloop. cbn [fst snd] in Hworld, Hall.
  rewrite Htext, str_app_assoc in Hworld.
  split; [destruct r as [[]|e]; exact Hworld |]. split; [| split].
  - intros Hpost. destruct Hall as [-> Hok].
    { eapply Forall_impl; [exact Hpost |]. intros e He.
      rewrite <- (with_file_key _ k EmptyString w Hk). apply entry_valid_opened, He. }
    split; [reflexivity |]. subst r. cbn [fst].
    rewrite Hworld.
    apply (relpath_returns _ (suppression_file self)). apply suppression_file_truthy.
  - intros Hfree. subst line. apply null_pointer_line. exact Hfree.
  - intros Hocc. subst line. apply null_pointer_line_cut. exact Hocc.
Qed.

(** ** The command line *)

(** C3, amended: whenever the suppression list is generated, the command
    is the options (if any), then [--dump] (if add-ons are on), then the
    suppression flag, then the thread flag and the eleven other fragments
    in their fixed order.  The thread flag is there once; any further
    [-j] token is one that the options, the path of the list or another
    fragment carries. *)
Theorem build_command_shape (self : CppCheckConfig.t) (w w' : World) (path : string) :
  CppCheckConfig.generate_suppression_list self w = (Ok path, w') →
  ∃ command rest,
    rest = Py.join " " [CppCheckConfig.output_format self; CppCheckConfig.message_level self;
                        CppCheckConfig.defines self; CppCheckConfig.un_defines self;
                        CppCheckConfig.standard self; CppCheckConfig.platform self;
                        CppCheckConfig.error_exit_code self; CppCheckConfig.includes self;
                        CppCheckConfig.excludes self; CppCheckConfig.directories self;
                        CppCheckConfig.files self]
    ∧ command
      = (if Py.truthy (CppCheckConfig.options self)
         then CppCheckConfig.options self +:+ " " else EmptyString)
        +:+ (if CppCheckConfig.add_ons self then "--dump " else EmptyString)
        +:+ "--suppressions-list=" +:+ path +:+ " "
        +:+ "-j " +:+ Py.str_of_int (AnalyzerConfig.threads (CppCheckConfig._raw_config self))
        +:+ " " +:+ rest
    ∧ CppCheckConfig.build_command self w = (Ok command, w')
    ∧ count_flag "-j" command
      = S (count_flag "-j" (CppCheckConfig.options self)
           + count_flag "-j" ("--suppressions-list=" +:+ path)
           + count_flag "-j" rest).
Proof.
  intros Hg. pose proof (generate_returns_truthy self w w' path Hg) as Hp.
  eexists. eexists. split; [reflexivity |]. split; [reflexivity |]. split.
  - unfold CppCheckConfig.build_command, bind. rewrite Hg, Hp.
    unfold ret, CppCheckConfig.threads. f_equal. f_equal.
    destruct (CppCheckConfig.add_ons self), (Py.truthy (CppCheckConfig.options self));
      cbn [Py.join String.concat]; rewrite ?str_app_assoc; reflexivity.
  - set (rest := Py.join " " _).
    assert (Hbase : ∀ x,
               count_flag "-j"
                 (x +:+ " " +:+ "-j " +:+ Py.str_of_int (AnalyzerConfig.threads
                                                           (CppCheckConfig._raw_config self))
                  +:+ " " +:+ rest)
               = S (count_flag "-j" x + count_flag "-j" rest)).
    { intros x. rewrite count_flag_app.
      change ("-j " +:+ ?y) with ("-j" +:+ " " +:+ y).
      rewrite !count_flag_app, count_flag_str_of_int.
      change (count_flag "-j" "-j") with 1%nat. lia. }
    assert (Hsupp : ∀ y, "--suppressions-list=" +:+ path +:+ " " +:+ y
                         = ("--suppressions-list=" +:+ path) +:+ " " +:+ y)
      by (intros y; rewrite str_app_assoc; reflexivity).
    rewrite Hsupp.
    destruct (CppCheckConfig.add_ons self), (Py.truthy (CppCheckConfig.options self)) eqn:Ho.
    + rewrite (str_app_assoc (CppCheckConfig.options self) " ").
      rewrite count_flag_app.
      change ("--dump " +:+ ?y) with ("--dump" +:+ " " +:+ y).
      rewrite count_flag_app, Hbase.
      change (count_flag "-j" "--dump") with 0%nat. lia.
    + destruct (CppCheckConfig.options self); [| discriminate].
      rewrite !str_app_nil_l.
      change ("--dump " +:+ ?y) with ("--dump" +:+ " " +:+ y).
      rewrite count_flag_app, Hbase.
      change (count_flag "-j" "--dump") with 0%nat.
      change (count_flag "-j" EmptyString) with 0%nat. lia.
    + rewrite (str_app_assoc (CppCheckConfig.options self) " ").
      rewrite count_flag_app, !str_app_nil_l, Hbase. lia.
    + destruct (CppCheckConfig.options self); [| discriminate].
      rewrite !str_app_nil_l, Hbase.
      change (count_flag "-j" EmptyString) with 0%nat. lia.
Qed.

(** ** The version property *)

(** [print] touches the console only. *)
Lemma cppcheck_run (self : CppCheck.t) (cmd dir : string) (w : World) :
  ∃ w', CppCheck.cppcheck self cmd dir w
        = ((host_shell (w_fs w) (w_environ w) (CppCheck._cppcheck_exe self +:+ " " +:+ cmd) dir).1,
           w').
Proof.
  unfold CppCheck.cppcheck, CppCheck._execute_shell_cmd. run. cbn.
  destruct (host_shell _ _ _ _) as [[r|e] fs']; cbn; eauto.
Qed.

(** The property never yields a value: the tuple of three is unpacked
    into two names before the output is looked at. *)
Lemma version_never_returns (s : CppCheck.t * World) (v : Py.pyval) :
  (CppCheck.version s).1 ≠ Ok v.
Proof.
  destruct s as [self w]. unfold CppCheck.version, os.getcwd. run.
  destruct (cppcheck_run self "--version" (w_cwd w) w) as [w' ->]. cbn.
  destruct (host_shell _ _ _ _) as [[r|e] fs']; cbn; discriminate.
Qed.

(** C7, as the code behaves: when the tool prints nothing, the property
    raises [ValueError] and the [_version] attribute is not assigned. *)
Theorem version_raises (self : CppCheck.t) (w : World) (rc : Z) (err : string) (fs' : FS) :
  host_shell (w_fs w) (w_environ w) (CppCheck._cppcheck_exe self +:+ " --version") (w_cwd w)
  = (Ok (rc, EmptyString, err), fs') →
  (CppCheck.version (self, w)).1 = Raise ValueError
  ∧ (CppCheck.version (self, w)).2.1 = self.
Proof.
  intros Hsh. unfold CppCheck.version, os.getcwd. run.
  destruct (cppcheck_run self "--version" (w_cwd w) w) as [w' ->]. cbn.
  change (" " +:+ "--version") with " --version". rewrite Hsh. cbn.
  split; reflexivity.
Qed.

(** ** An unknown configuration *)

(** C9: for a name the mapping does not hold, [execute] returns 0 and
    leaves the object and the world as they were: no process is started,
    no directory made and no file written. *)
Theorem execute_unknown_configuration
    (self : CppCheck.t) (config working_dir : string) (w : World) :
  CppCheck.configurations self !! config = None →
  CppCheck.execute config working_dir (self, w) = (Ok 0%Z, (self, w)).
Proof.
  intros Hnone. unfold CppCheck.execute. run. rewrite Hnone. reflexivity.
Qed.

End Analyzer.

Section Formatter.
Context `{Host}.

(** C8: with [inplace] set and style [S], the command of a file is
    [-i -style=S ] followed by the resolved path of the file, which is
    absolute; the world is only read. *)
Theorem build_file_command_inplace
    (self : ClangFormatConfig.t) (S file working_dir : string) (w : World) :
  FormatterConfig.inplace (ClangFormatConfig._raw_config self) = true →
  FormatterConfig.style (ClangFormatConfig._raw_config self) = S →
  ∃ path,
    ClangFormatConfig.build_file_command self file working_dir w
    = (Ok ("-i -style=" +:+ S +:+ " " +:+ path), w)
    ∧ path = host_realpath (w_fs w) (w_cwd w) (os.path.join working_dir [file])
    ∧ os.path.isabs path = true.
Proof.
  intros Hi Hs. eexists. split; [| split; [reflexivity |]].
  - unfold ClangFormatConfig.build_file_command, ClangFormatConfig.inplace,
      ClangFormatConfig.style. run. rewrite Hi, Hs. reflexivity.
  - apply host_realpath_isabs.
Qed.

(** ** Stopping at the first message on stderr *)















End Formatter.

(** * The theorems at concrete inputs *)

(** C1 at a configuration whose suppression list is empty. *)
Lemma generate_suppression_list_empty_raises_witness :
  @CppCheckConfig.generate_suppression_list demo_host (demo_config [] (Some [])) demo_world
  = (Raise TypeError, demo_world)
  ∧ @CppCheckConfig.build_command demo_host (demo_config [] (Some [])) demo_world
    = (Raise TypeError, demo_world).
Proof.
  apply (@generate_suppression_list_empty_raises demo_host
           (demo_config [] (Some [])) demo_world).
  right. reflexivity.
Defined.

(** C2 as stated fails.  With one entry that points at a missing file,
    the call raises, and the list, which was not there, is there afterwards
    (empty).  With a valid entry before the missing one, a list that an
    earlier run left is replaced by the text of the valid entry. *)
Lemma invalid_path_writes_list :
  (@CppCheckConfig.generate_suppression_list demo_host
     (demo_config [] (Some [demo_entry "missing.cpp"])) demo_world).1
  = Raise (RuntimeError "Invalid path: missing.cpp")
  ∧ read_text demo_world "cfg_suppression_list.txt" = None
  ∧ read_text (@CppCheckConfig.generate_suppression_list demo_host
       (demo_config [] (Some [demo_entry "missing.cpp"])) demo_world).2
      "cfg_suppression_list.txt"
    = Some EmptyString
  ∧ (@CppCheckConfig.generate_suppression_list demo_host
       (demo_config [] (Some [demo_entry "src/a.cpp"; demo_entry "missing.cpp"]))
       stale_world).1
    = Raise (RuntimeError "Invalid path: missing.cpp")
  ∧ read_text stale_world "cfg_suppression_list.txt" = Some "stale"
  ∧ read_text (@CppCheckConfig.generate_suppression_list demo_host
       (demo_config [] (Some [demo_entry "src/a.cpp"; demo_entry "missing.cpp"]))
       stale_world).2 "cfg_suppression_list.txt"
    = Some (demo_lines "src/a.cpp").
Proof. vm_compute. repeat split; reflexivity. Qed.

(** C2, amended, at a valid entry followed by a missing file. *)
Lemma generate_suppression_list_invalid_path_witness :
  @CppCheckConfig.generate_suppression_list demo_host
    (demo_config [] (Some [demo_entry "src/a.cpp"; demo_entry "missing.cpp"])) demo_world
  = (Raise (RuntimeError "Invalid path: missing.cpp"),
     with_file "cfg_suppression_list.txt" (demo_lines "src/a.cpp") demo_world).
Proof.
  apply (@generate_suppression_list_invalid_path demo_host
           (demo_config [] (Some [demo_entry "src/a.cpp"; demo_entry "missing.cpp"]))
           demo_world [demo_entry "src/a.cpp"] [] (demo_entry "missing.cpp")).
  - reflexivity.
  - repeat constructor.
  - reflexivity.
  - reflexivity.
  - reflexivity.
Defined.

(** An entry that names the list itself under another spelling is no
    missing file: the list is there once it has been opened, so the entry
    is found, its lines are written and the call returns. *)
Example list_named_by_another_spelling :
  same_file demo_world "./cfg_suppression_list.txt" "cfg_suppression_list.txt" = true
  ∧ os.path.isfile demo_world "./cfg_suppression_list.txt" = false
  ∧ (@CppCheckConfig.generate_suppression_list demo_host
       (demo_config [] (Some [demo_entry "./cfg_suppression_list.txt"])) demo_world).1
    = Ok "cfg_suppression_list.txt"
  ∧ read_text (@CppCheckConfig.generate_suppression_list demo_host
       (demo_config [] (Some [demo_entry "./cfg_suppression_list.txt"])) demo_world).2
      "/home/dev/proj/cfg_suppression_list.txt"
    = Some (demo_lines "./cfg_suppression_list.txt").
Proof. vm_compute. repeat split; reflexivity. Qed.

(** Paths in the demo project: a file is found under every spelling that
    leads to it, and under none that goes through a missing directory or
    through the file itself. *)
Example demo_paths :
  map (os.path.isfile demo_world)
      ["src/a.cpp"; "./src/a.cpp"; "/home/dev/proj/src/a.cpp"; "src/../src/a.cpp";
       "//home/dev/proj/src//a.cpp"; "../proj/src/a.cpp"]
  = [true; true; true; true; true; true]
  ∧ map (os.path.isfile demo_world)
        ["nodir/../src/a.cpp"; "src/a.cpp/"; "src/a.cpp/."; "src"; "a.cpp"; EmptyString]
    = [false; false; false; false; false; false]
  ∧ map (os.path.isdir demo_world) ["src"; "src/"; "."; ".."; "/"; "src/../src/."]
    = [true; true; true; true; true; true]
  ∧ map (os.path.isdir demo_world) ["out"; "src/a.cpp"; "nodir/.."; EmptyString]
    = [false; false; false; false].
Proof. vm_compute. repeat split; reflexivity. Qed.

(** C3 as stated fails: options that carry a thread flag of their own give
    a command with two. *)
Lemma build_command_two_thread_flags :
  (@CppCheckConfig.build_command demo_host
     (demo_config ["-j 2"] (Some [demo_entry "src/a.cpp"])) demo_world).1
  = Ok two_j_command
  ∧ count_flag "-j" two_j_command = 2%nat.
Proof. vm_compute. split; reflexivity. Qed.

(** C3, amended, at a configuration without options: one thread flag. *)
Lemma build_command_shape_witness :
  ∃ command,
    (@CppCheckConfig.build_command demo_host
       (demo_config [] (Some [demo_entry "src/a.cpp"])) demo_world).1 = Ok command
    ∧ Py.startswith "--dump --suppressions-list=cfg_suppression_list.txt -j 4 " command = true
    ∧ count_flag "-j" command = 1%nat.
Proof.
  destruct (@build_command_shape demo_host
              (demo_config [] (Some [demo_entry "src/a.cpp"])) demo_world
              (with_file "cfg_suppression_list.txt" (demo_lines "src/a.cpp") demo_world)
              "cfg_suppression_list.txt")
    as (command & rest & Hrest & Hcommand & Hbuild & Hcount).
  - vm_compute. reflexivity.
  - exists command. rewrite Hbuild, Hcount, Hcommand, Hrest.
    vm_compute. repeat split; reflexivity.
Defined.

(** C4 as stated fails: a relative file name is written as it is, not as
    an absolute path; an empty line follows the suppression line even where
    the name is absolute; and a name with a double colon is cut there. *)
Lemma suppression_line_not_absolute :
  read_text (@CppCheckConfig.generate_suppression_list demo_host
     (demo_config [] (Some [demo_entry "src/a.cpp"])) demo_world).2
    "cfg_suppression_list.txt"
  = Some ("// x" +:+ Py.nl +:+ "nullPointer:src/a.cpp:42" +:+ Py.nl +:+ Py.nl)
  ∧ os.path.abspath demo_world "src/a.cpp" = "/home/dev/proj/src/a.cpp"
  ∧ read_text (@CppCheckConfig.generate_suppression_list demo_host
       (demo_config [] (Some [demo_entry "/home/dev/proj/src/a.cpp"])) demo_world).2
      "cfg_suppression_list.txt"
    ≠ Some ("// x" +:+ Py.nl +:+ "nullPointer:/home/dev/proj/src/a.cpp:42" +:+ Py.nl)
  ∧ read_text (@CppCheckConfig.generate_suppression_list demo_host
       (demo_config [] (Some [demo_entry "src/x::y.cpp"])) demo_world).2
      "cfg_suppression_list.txt"
    = Some ("// x" +:+ Py.nl +:+ "nullPointer:src/x" +:+ Py.nl +:+ Py.nl).
Proof. vm_compute. repeat split; try reflexivity. discriminate. Qed.

(** C4, amended, at the entry for the relative file name, followed by an
    entry that points at a missing file: the call raises at that one, and
    the three lines of the first are in the list. *)
Lemma suppression_entry_lines_witness :
  ∃ written,
    (@CppCheckConfig.generate_suppression_list demo_host
       (demo_config [] (Some [demo_entry "src/a.cpp"; demo_entry "missing.cpp"]))
       demo_world).2
    = with_file "cfg_suppression_list.txt"
        (("// x" +:+ Py.nl +:+ "nullPointer:src/a.cpp:42" +:+ Py.nl +:+ Py.nl)
         +:+ entries_text demo_world written) demo_world.
Proof.
  destruct (@suppression_entry_lines demo_host
              (demo_config [] (Some [demo_entry "src/a.cpp"; demo_entry "missing.cpp"]))
              demo_world [] [demo_entry "missing.cpp"] (demo_entry "src/a.cpp"))
    as (line & written & _ & Hworld & _ & Hline & _).
  - reflexivity.
  - constructor.
  - reflexivity.
  - reflexivity.
  - reflexivity.
  - reflexivity.
  - reflexivity.
  - exists written. rewrite Hworld, (Hline eq_refl). reflexivity.
Defined.

(** C5 at an entry without a file name, after a valid one. *)
Lemma empty_filename_raises_witness :
  @CppCheckConfig.generate_suppression_list demo_host
    (demo_config [] (Some [demo_entry "src/a.cpp"; demo_entry EmptyString])) demo_world
  = (Raise (RuntimeError "Invalid path: "),
     with_file "cfg_suppression_list.txt" (demo_lines "src/a.cpp") demo_world).
Proof.
  apply (@empty_filename_raises demo_host
           (demo_config [] (Some [demo_entry "src/a.cpp"; demo_entry EmptyString]))
           demo_world [demo_entry "src/a.cpp"] [] (demo_entry EmptyString)).
  - reflexivity.
  - repeat constructor.
  - reflexivity.
Defined.

(** C7 at a tool that prints nothing. *)
Lemma version_raises_witness :
  (@CppCheck.version silent_host (CppCheck.__init__ "cppcheck", demo_world)).1
  = Raise ValueError
  ∧ (@CppCheck.version silent_host (CppCheck.__init__ "cppcheck", demo_world)).2.1
    = CppCheck.__init__ "cppcheck".
Proof.
  apply (@version_raises silent_host (CppCheck.__init__ "cppcheck") demo_world
           0%Z EmptyString (w_fs demo_world)).
  reflexivity.
Defined.

(** C8 at the demo project. *)
Lemma build_file_command_inplace_witness :
  ∃ path,
    @ClangFormatConfig.build_file_command demo_host demo_formatter
      "src/a.cpp" "/home/dev/proj" demo_world
    = (Ok ("-i -style=" +:+ "file" +:+ " " +:+ path), demo_world)
    ∧ path = "/home/dev/proj/src/a.cpp"
    ∧ os.path.isabs path = true.
Proof.
  apply (@build_file_command_inplace demo_host demo_formatter "file"
           "src/a.cpp" "/home/dev/proj" demo_world); reflexivity.
Defined.

(** C9 at a name the mapping does not hold. *)
Lemma execute_unknown_configuration_witness :
  @CppCheck.execute demo_host "release" "/home/dev/proj"
    (demo_cppcheck (Some [demo_entry "src/a.cpp"]), demo_world)
  = (Ok 0%Z, (demo_cppcheck (Some [demo_entry "src/a.cpp"]), demo_world)).
Proof.
  apply (@execute_unknown_configuration demo_host
           (demo_cppcheck (Some [demo_entry "src/a.cpp"])) "release" "/home/dev/proj"
           demo_world).
  reflexivity.
Defined.

(** C6 at three files and a directory, with a formatter that complains
    about the second file: two processes are started, the third file and
    the directory are skipped, and the exit code 3 is returned.  With a
    formatter that never complains all four are processed and the result
    is 0. *)
Example formatter_stops_at_second_file :
  (@ClangFormatter.execute noisy_host demo_formatter_run demo_world).1 = Ok 3%Z
  ∧ map pc_command
      (w_spawned (@ClangFormatter.execute noisy_host demo_formatter_run demo_world).2)
    = ["clang-format -verbose -i -style=file /home/dev/proj/a.cpp";
       "clang-format -verbose -i -style=file /home/dev/proj/b.cpp"]
  ∧ (@ClangFormatter.execute demo_host demo_formatter_run demo_world).1 = Ok 0%Z
  ∧ length (w_spawned (@ClangFormatter.execute demo_host demo_formatter_run demo_world).2)
    = 4%nat.
Proof. vm_compute. repeat split; reflexivity. Qed.


(** * Further properties of the code *)

Section Frame.
Context `{Host}.

(** ** What building a command may change *)

Lemma same_but_files_refl (w : World) : same_but_files w w.
Proof. repeat split. Qed.

(** Where a path leads depends on the directories only. *)
Lemma same_but_files_lookup (w w' : World) (p : string) :
  same_but_files w w' → posix.lookup w' p = posix.lookup w p.
Proof. intros (Hd & _ & Hc & _). unfold posix.lookup. rewrite Hd, Hc. reflexivity. Qed.

Lemma touches_only_refl (p : string) (w : World) : touches_only p w w.
Proof. split; [apply same_but_files_refl | reflexivity]. Qed.

Lemma touches_only_lookup (p q : string) (w w' : World) :
  touches_only p w w' → posix.lookup w' q = posix.lookup w q.
Proof. intros [Hs _]. apply same_but_files_lookup, Hs. Qed.

Lemma touches_only_trans (p : string) (w1 w2 w3 : World) :
  touches_only p w1 w2 → touches_only p w2 w3 → touches_only p w1 w3.
Proof.
  intros H12 H23. pose proof (touches_only_lookup p p _ _ H12) as Hl.
  destruct H12 as [(Hd & He & Hc & Ho & Hs) Hf], H23 as [(Hd' & He' & Hc' & Ho' & Hs') Hf'].
  split; [repeat split; congruence |].
  intros k Hk. rewrite Hf', Hf; [reflexivity | exact Hk | rewrite Hl; exact Hk].
Qed.

Lemma touches_only_with_key (p k v : string) (w : World) :
  posix.lookup w p = Some k → touches_only p w (with_key k v w).
Proof.
  intros Hp. split; [repeat split |]. intros k' Hk'. cbn.
  rewrite lookup_insert_ne by congruence. reflexivity.
Qed.

Lemma open_w_touches (p : string) (w : World) : touches_only p w (open_w p w).2.
Proof.
  unfold open_w. destruct (posix.lookup w p) as [k|] eqn:Hp; [| apply touches_only_refl].
  destruct (host_may_write _ _ _); cbn [snd].
  - apply (touches_only_with_key p k _ w Hp).
  - apply touches_only_refl.
Qed.

(** The file object that [open] returns stands for the file of the path. *)
Lemma open_w_handle (p f : string) (w w1 : World) :
  open_w p w = (Ok f, w1) → posix.lookup w1 p = Some f.
Proof.
  unfold open_w. destruct (posix.lookup w p) as [k|] eqn:Hp; [| discriminate].
  destruct (host_may_write _ _ _); [| discriminate].
  intros [= <- <-]. exact Hp.
Qed.

Lemma write_touches (p f text : string) (w : World) :
  posix.lookup w p = Some f → touches_only p w (write f text w).2.
Proof. intros Hp. unfold write, modify. cbn [snd]. apply (touches_only_with_key p f _ w Hp). Qed.

Lemma bind_touches {A B} (p : string) (m : M World A) (k : A → M World B) (w : World) :
  touches_only p w (m w).2 →
  (∀ a w1, m w = (Ok a, w1) → touches_only p w1 (k a w1).2) →
  touches_only p w (bind m k w).2.
Proof.
  intros Hm Hk. unfold bind. destruct (m w) as [[a|e] w1]; cbn [snd] in *.
  - eapply touches_only_trans; [exact Hm | apply Hk; reflexivity].
  - exact Hm.
Qed.

Lemma write_entry_touches (p f : string) (item : SuppressionEntry.t) (w : World) :
  posix.lookup w p = Some f →
  touches_only p w (CppCheckConfig.write_entry f item w).2.
Proof.
  intros Hp. unfold CppCheckConfig.write_entry.
  apply bind_touches; [apply touches_only_refl |]. intros filename w1 [= _ <-].
  apply bind_touches; [apply touches_only_refl |]. intros isfile w2 [= _ <-].
  destruct isfile; cbn [negb].
  - apply bind_touches; [apply write_touches, Hp |]. intros [] w3 [= <-].
    apply write_touches. exact Hp.
  - apply touches_only_refl.
Qed.

Lemma for_in_touches {A} (p f : string) (body : A → M World unit) (l : list A) :
  (∀ x w, posix.lookup w p = Some f → touches_only p w (body x w).2) →
  ∀ w, posix.lookup w p = Some f → touches_only p w (for_in l body w).2.
Proof.
  intros Hbody. induction l as [|x l IH]; intros w Hp; cbn [for_in].
  - apply touches_only_refl.
  - apply bind_touches; [apply Hbody, Hp |]. intros [] w1 Hx. apply IH.
    pose proof (Hbody x w Hp) as Ht. rewrite Hx in Ht. cbn [snd] in Ht.
    rewrite (touches_only_lookup p p _ _ Ht). exact Hp.
Qed.

Lemma generate_touches (self : CppCheckConfig.t) (w : World) :
  touches_only (suppression_file self) w
    (CppCheckConfig.generate_suppression_list self w).2.
Proof.
  unfold CppCheckConfig.generate_suppression_list.
  apply bind_touches.
  - destruct (AnalyzerConfig.suppression _) as [[|item items]|];
      try apply touches_only_refl.
    fold (suppression_file self).
    apply bind_touches; [apply open_w_touches |]. intros f w1 Hopen.
    apply bind_touches; [| intros; apply touches_only_refl].
    apply (for_in_touches _ f); [| exact (open_w_handle _ _ _ _ Hopen)].
    intros x w2. apply write_entry_touches.
  - intros act w1 _.
    apply bind_touches; [apply touches_only_refl |]. intros cwd w2 _.
    apply bind_touches; [apply touches_only_refl |]. intros start w3 _.
    apply bind_touches; [apply touches_only_refl |]. intros w4 w5 _.
    apply touches_only_refl.
Qed.

Lemma build_command_touches (self : CppCheckConfig.t) (w : World) :
  touches_only (suppression_file self) w (CppCheckConfig.build_command self w).2.
Proof.
  unfold CppCheckConfig.build_command.
  apply bind_touches; [apply generate_touches |].
  intros path w1 _. apply touches_only_refl.
Qed.

(** X2: whether it returns or raises, [build_command] changes at most the
    suppression list of the configuration: every other file keeps its
    contents, no directory is made, nothing is printed and no process is
    started. *)
Theorem build_command_touches_only_list (self : CppCheckConfig.t) (w : World) :
  touches_only (suppression_file self) w (CppCheckConfig.build_command self w).2.
Proof. exact (build_command_touches self w). Qed.

End Frame.

Section Lists.
Context `{Host}.

(** ** Writing the suppression list *)

Lemma with_file_twice (f t1 t2 : string) (w : World) :
  with_file f t2 (with_file f t1 w) = with_file f t2 w.
Proof.
  unfold with_file. destruct (posix.lookup w f) as [k|] eqn:Hk.
  - change (posix.lookup (with_key k t1 w) f) with (posix.lookup w f). rewrite Hk.
    unfold with_key. cbn. rewrite insert_insert_eq. reflexivity.
  - rewrite Hk. reflexivity.
Qed.

(** X3: over entries that all name existing files, the list holds the
    text of every entry, in the order of the configuration: its comment
    line, its suppression line and an empty line.  Nothing else in the
    world changes, and a path that is not empty is returned. *)
Theorem generate_writes_every_entry
    (self : CppCheckConfig.t) (w : World) (items : list SuppressionEntry.t) :
  AnalyzerConfig.suppression (CppCheckConfig._raw_config self) = Some items →
  items ≠ [] →
  Forall (λ item, entry_valid w item = true) items →
  host_may_write (w_fs w) (w_cwd w) (suppression_file self) = true →
  ∃ path,
    CppCheckConfig.generate_suppression_list self w
    = (Ok path, with_file (suppression_file self) (entries_text w items) w)
    ∧ Py.truthy path = true.
Proof.
  intros Hs Hne Hall Hm.
  destruct (relpath_returns w (suppression_file self)
              (os.path.common_chars (w_cwd w) (suppression_file self))
              (suppression_file_truthy self)) as [path Hpath].
  exists path. split.
  - rewrite (generate_all_valid self w items Hs Hne Hm), Hpath; [reflexivity |].
    eapply Forall_impl; [exact Hall |]. intros e. apply entry_valid_opened.
  - exact (relpath_truthy _ _ _ _ Hpath).
Qed.

(** X4: generating the list again changes nothing.  Where the entries all
    name existing files and the list may be written, whatever the files
    hold, a second call returns the same path and leaves the world of the
    first call as it is. *)
Theorem generate_twice_same
    (self : CppCheckConfig.t) (w : World) (items : list SuppressionEntry.t) :
  AnalyzerConfig.suppression (CppCheckConfig._raw_config self) = Some items →
  items ≠ [] →
  Forall (λ item, entry_valid w item = true) items →
  (∀ fs, fs_dirs fs = fs_dirs (w_fs w) →
         host_may_write fs (w_cwd w) (suppression_file self) = true) →
  ∃ path w1,
    CppCheckConfig.generate_suppression_list self w = (Ok path, w1)
    ∧ CppCheckConfig.generate_suppression_list self w1 = (Ok path, w1).
Proof.
  intros Hs Hne Hall Hm.
  destruct (relpath_returns w (suppression_file self)
              (os.path.common_chars (w_cwd w) (suppression_file self))
              (suppression_file_truthy self)) as [path Hpath].
  assert (Hopened : Forall (λ item, entry_valid
                               (with_file (suppression_file self) EmptyString w) item = true)
                      items).
  { eapply Forall_impl; [exact Hall |]. intros e. apply entry_valid_opened. }
  destruct (may_write_lookup _ _ (Hm (w_fs w) eq_refl)) as [k Hk].
  exists path, (with_file (suppression_file self) (entries_text w items) w).
  split.
  - rewrite (generate_all_valid self w items Hs Hne (Hm _ eq_refl) Hopened), Hpath.
    reflexivity.
  - rewrite (generate_all_valid self
               (with_file (suppression_file self) (entries_text w items) w)
               items Hs Hne).
    + rewrite with_file_twice.
      rewrite (with_file_key _ k (entries_text w items) w Hk).
      change (os.path.relpath (with_key _ _ w)) with (os.path.relpath w).
      change (w_cwd (with_key _ _ w)) with (w_cwd w).
      change (entries_text (with_key _ _ w)) with (entries_text w).
      rewrite Hpath, (with_file_key _ k (entries_text w items) w Hk). reflexivity.
    + rewrite (with_file_key _ k _ w Hk). apply (Hm (w_fs (with_key k _ w))).
      reflexivity.
    + rewrite with_file_twice. exact Hopened.
Qed.



End Lists.

Section Running.
Context `{Host}.

(** ** Binding a configuration to a working directory *)

(** The setter, step by step: the attributes first, then the directory. *)
Lemma setter_run (val : string) (cfg : CppCheckConfig.t) (w : World) :
  CppCheckConfig.set_cpp_working_dir val (cfg, w)
  = if os.path.isdir w (CppCheckConfig.results_dir (bound_to val cfg))
    then (Ok tt, (bound_to val cfg, w))
    else
      let made := host_makedirs (w_fs w) (w_cwd w)
                    (CppCheckConfig.results_dir (bound_to val cfg)) in
      (if made.1 then Ok tt else Raise OSError,
       (bound_to val cfg, set_dirs made.2 w)).
Proof.
  unfold CppCheckConfig.set_cpp_working_dir, os.makedirs. run. cbn.
  fold (bound_to val cfg).
  destruct (os.path.isdir w _); cbn; [reflexivity |].
  destruct (host_makedirs _ _ _) as [[] dirs]; reflexivity.
Qed.

(** X6: setting the working directory binds the results directory to
    [val]/[output_dir]/[name] and sees to it that it is a directory: one
    that exists is left alone, a missing one is made.  No file is touched
    and no directory is lost.  Setting the same working directory again
    changes nothing. *)
Theorem working_dir_setter_makes_results_dir
    (val : string) (cfg : CppCheckConfig.t) (w : World) :
  os.path.isdir w (os.path.join val [CppCheckConfig.output_dir cfg; CppCheckConfig.name cfg]) = true
  ∨ (host_makedirs (w_fs w) (w_cwd w)
       (os.path.join val [CppCheckConfig.output_dir cfg; CppCheckConfig.name cfg])).1 = true →
  ∃ w',
    CppCheckConfig.set_cpp_working_dir val (cfg, w) = (Ok tt, (bound_to val cfg, w'))
    ∧ CppCheckConfig.cpp_working_dir (bound_to val cfg) = val
    ∧ CppCheckConfig.results_dir (bound_to val cfg)
      = os.path.join val [CppCheckConfig.output_dir cfg; CppCheckConfig.name cfg]
    ∧ os.path.isdir w' (CppCheckConfig.results_dir (bound_to val cfg)) = true
    ∧ fs_files (w_fs w') = fs_files (w_fs w)
    ∧ fs_dirs (w_fs w) ⊆ fs_dirs (w_fs w')
    ∧ (os.path.isdir w (CppCheckConfig.results_dir (bound_to val cfg)) = true → w' = w)
    ∧ CppCheckConfig.set_cpp_working_dir val (bound_to val cfg, w')
      = (Ok tt, (bound_to val cfg, w')).
Proof.
  intros Hdir. rewrite setter_run. cbn zeta.
  change (os.path.join val [CppCheckConfig.output_dir cfg; CppCheckConfig.name cfg])
    with (CppCheckConfig.results_dir (bound_to val cfg)) in *.
  set (d := CppCheckConfig.results_dir (bound_to val cfg)) in *.
  destruct (os.path.isdir w d) eqn:Ed.
  - exists w. repeat split; try reflexivity; try assumption.
    rewrite setter_run.
    change (CppCheckConfig.results_dir (bound_to val (bound_to val cfg))) with d.
    rewrite Ed. reflexivity.
  - destruct Hdir as [Hd | Hm]; [discriminate |].
    pose proof (host_makedirs_made (w_fs w) (w_cwd w) d Hm) as Hnow.
    pose proof (host_makedirs_keeps (w_fs w) (w_cwd w) d) as Hkeep.
    rewrite Hm. eexists. split; [reflexivity |].
    repeat split; try reflexivity; try assumption.
    + discriminate.
    + rewrite setter_run.
      change (CppCheckConfig.results_dir (bound_to val (bound_to val cfg))) with d.
      replace (os.path.isdir (set_dirs (host_makedirs (w_fs w) (w_cwd w) d).2 w) d)
        with true; reflexivity || (symmetry; exact Hnow).
Qed.

(** X7: when the results directory is missing and [makedirs] fails, the
    setter raises [OSError], yet the configuration is already bound to the
    working directory.  No file is touched, nothing is printed and no
    process is started; no directory is lost, and the directories that
    [makedirs] made before it failed are there. *)
Theorem working_dir_setter_refused
    (val : string) (cfg : CppCheckConfig.t) (w : World) :
  os.path.isdir w (os.path.join val [CppCheckConfig.output_dir cfg; CppCheckConfig.name cfg]) = false →
  (host_makedirs (w_fs w) (w_cwd w)
     (os.path.join val [CppCheckConfig.output_dir cfg; CppCheckConfig.name cfg])).1 = false →
  ∃ w',
    CppCheckConfig.set_cpp_working_dir val (cfg, w) = (Raise OSError, (bound_to val cfg, w'))
    ∧ CppCheckConfig.cpp_working_dir (bound_to val cfg) = val
    ∧ CppCheckConfig.results_dir (bound_to val cfg)
      = os.path.join val [CppCheckConfig.output_dir cfg; CppCheckConfig.name cfg]
    ∧ fs_dirs (w_fs w')
      = (host_makedirs (w_fs w) (w_cwd w)
           (os.path.join val [CppCheckConfig.output_dir cfg; CppCheckConfig.name cfg])).2
    ∧ fs_dirs (w_fs w) ⊆ fs_dirs (w_fs w')
    ∧ fs_files (w_fs w') = fs_files (w_fs w)
    ∧ w_environ w' = w_environ w
    ∧ w_cwd w' = w_cwd w
    ∧ w_console w' = w_console w
    ∧ w_spawned w' = w_spawned w.
Proof.
  intros Hd Hm. rewrite setter_run. cbn zeta.
  change (CppCheckConfig.results_dir (bound_to val cfg))
    with (os.path.join val [CppCheckConfig.output_dir cfg; CppCheckConfig.name cfg]).
  rewrite Hd, Hm. eexists. split; [reflexivity |].
  repeat split. apply host_makedirs_keeps.
Qed.

(** ** Running the analyzer on a loaded configuration *)

Lemma setter_binds (val : string) (cfg : CppCheckConfig.t) (w : World) :
  ∃ r w1, CppCheckConfig.set_cpp_working_dir val (cfg, w) = (r, (bound_to val cfg, w1))
          ∧ fs_files (w_fs w1) = fs_files (w_fs w)
          ∧ w_spawned w1 = w_spawned w
          ∧ w_console w1 = w_console w
          ∧ w_cwd w1 = w_cwd w
          ∧ (r = Ok tt ∨ r = Raise OSError).
Proof.
  rewrite setter_run. cbn zeta.
  destruct (os.path.isdir w _); [eauto 10 |].
  destruct (host_makedirs _ _ _) as [[] dirs]; cbn [fst snd]; eauto 10.
Qed.

(** [cppcheck] with the world it leaves: two lines are printed, the
    process runs, and two more lines follow when it came back. *)
Lemma cppcheck_world (self : CppCheck.t) (cmd dir : string) (w : World) :
  CppCheck.cppcheck self cmd dir w
  = let full_command := CppCheck._cppcheck_exe self +:+ " " +:+ cmd in
    let outcome := host_shell (w_fs w) (w_environ w) full_command dir in
    let started :=
      log_spawned {| pc_command := full_command; pc_cwd := dir; pc_outcome := outcome.1 |}
        (set_fs outcome.2
           (log_console full_command
              (log_console "Running CPPCheck, please be patient..." w))) in
    match outcome.1 with
    | Ok r => (Ok r, log_console "CPPCheck Complete"
                       (log_console ("Return Code: " +:+ Py.str_of_int r.1.1) started))
    | Raise e => (Raise e, started)
    end.
Proof.
  unfold CppCheck.cppcheck, CppCheck._execute_shell_cmd. run. cbn.
  destruct (host_shell _ _ _ _) as [[r|e] fs']; reflexivity.
Qed.

(** [execute] on a name the mapping holds, stage by stage. *)
Lemma execute_known (self : CppCheck.t) (config working_dir : string) (w : World)
    (cfg0 : CppCheckConfig.t) :
  CppCheck.configurations self !! config = Some cfg0 →
  CppCheck.execute config working_dir (self, w)
  = let cfg := bound_to working_dir cfg0 in
    let self1 := CppCheck.set_configuration config cfg self in
    match CppCheckConfig.set_cpp_working_dir working_dir (cfg0, w) with
    | (Raise e, s) => (Raise e, (self1, s.2))
    | (Ok _, s) =>
        match CppCheckConfig.build_command cfg s.2 with
        | (Raise e, w2) => (Raise e, (self1, w2))
        | (Ok command, w2) =>
            match CppCheck.cppcheck self1 command working_dir w2 with
            | (Raise e, w3) => (Raise e, (self1, w3))
            | (Ok r, w3) =>
                match (f <- open_w (log_file cfg) ;; write f r.1.2) w3 with
                | (Raise e, w4) => (Raise e, (self1, w4))
                | (Ok _, w4) =>
                    match (f <- open_w (err_file cfg) ;; write f r.2) w4 with
                    | (Raise e, w5) => (Raise e, (self1, w5))
                    | (Ok _, w5) => (Ok r.1.1, (self1, w5))
                    end
                end
            end
        end
    end.
Proof.
  intros Hcfg. cbn zeta.
  destruct (setter_binds working_dir cfg0 w) as (r1 & w1 & Hset & _).
  unfold CppCheck.execute. run. rewrite Hcfg. cbn beta iota. cbn [fst snd].
  rewrite !Hset. cbn [fst snd].
  destruct r1 as [[]|e]; [| reflexivity].
  cbn [fst snd CppCheck.set_configuration CppCheck.configurations].
  rewrite lookup_insert_eq. cbn [default].
  destruct (CppCheckConfig.build_command _ w1) as [[command|e] w2]; [| reflexivity].
  cbn [fst snd].
  destruct (CppCheck.cppcheck _ command working_dir w2) as [[[[rc out] err]|e] w3];
    [| reflexivity].
  cbn [fst snd id].
  fold (log_file (bound_to working_dir cfg0)) (err_file (bound_to working_dir cfg0)).
  destruct (open_w (log_file _) w3) as [[f|e] w4]; [| reflexivity].
  cbn [fst snd].
  destruct (write f out w4) as [[[]|e] w4']; [| reflexivity].
  cbn [fst snd].
  destruct (open_w (err_file _) w4') as [[f'|e] w5]; [| reflexivity].
  cbn [fst snd].
  destruct (write f' err w5) as [[[]|e] w5']; reflexivity.
Qed.

Lemma build_command_no_entries (self : CppCheckConfig.t) (w : World) :
  AnalyzerConfig.suppression (CppCheckConfig._raw_config self) = None
  ∨ AnalyzerConfig.suppression (CppCheckConfig._raw_config self) = Some [] →
  CppCheckConfig.build_command self w = (Raise TypeError, w).
Proof.
  intros Hs. unfold CppCheckConfig.build_command, bind.
  assert (Hg : CppCheckConfig.generate_suppression_list self w = (Raise TypeError, w)).
  { unfold CppCheckConfig.generate_suppression_list.
    destruct Hs as [-> | ->]; reflexivity. }
  rewrite Hg. reflexivity.
Qed.

(** Opening a file and writing one text leaves the file with that text. *)
Lemma save_file (p text : string) (w : World) :
  host_may_write (w_fs w) (w_cwd w) p = true →
  (f <- open_w p ;; write f text) w = (Ok tt, with_file p text w).
Proof.
  intros Hm. destruct (open_w_ok _ _ Hm) as (k & Hk & Hopen).
  unfold bind. rewrite Hopen, write_with_key, (with_file_key _ k _ w Hk). reflexivity.
Qed.

(** *** The two logs are two files *)

Lemma split_char_snoc (c : ascii) (s : string) :
  os.path.has_char c s = false →
  ∀ q, ∃ init last,
    Py.split_char c q = init ++ [last]
    ∧ Py.split_char c (q +:+ s) = init ++ [last +:+ s].
Proof.
  intros Hs. induction q as [|a q (init & last & Hq & Hqs)].
  - exists [], EmptyString. split; [reflexivity |].
    rewrite str_app_nil_l. apply split_char_none, Hs.
  - rewrite str_app_cons. cbn [Py.split_char]. rewrite Hq, Hqs.
    destruct (Ascii.eqb a c).
    + exists (EmptyString :: init), last. split; reflexivity.
    + destruct init as [|i init].
      * exists [], (String a last). split; reflexivity.
      * exists (String a i :: init), last. split; reflexivity.
Qed.

Lemma walk_app (dirs : gset string) (l1 l2 : list string) :
  ∀ stack,
    posix.walk dirs stack (l1 ++ l2)
    = posix.walk dirs stack l1 ≫= λ stack', posix.walk dirs stack' l2.
Proof.
  induction l1 as [|c l1 IH]; intros stack; [reflexivity |].
  cbn [app posix.walk].
  destruct (posix.is_dir_key dirs (posix.key stack)); [| reflexivity].
  destruct (_ || _); [apply IH |].
  destruct (bool_decide _); apply IH.
Qed.

Lemma concat_snoc_inj (sep : string) (l : list string) (x1 x2 : string) :
  String.concat sep (l ++ [x1]) = String.concat sep (l ++ [x2]) → x1 = x2.
Proof.
  induction l as [|a l IH]; [auto |].
  assert (Hcons : ∀ x, String.concat sep (a :: l ++ [x])
                       = a +:+ sep +:+ String.concat sep (l ++ [x])).
  { intros x. destruct l; reflexivity. }
  cbn [app]. rewrite !Hcons. intros E.
  apply (inj (String.app a)), (inj (String.app sep)) in E. exact (IH E).
Qed.

Lemma str_length_app (a b : string) :
  String.length (a +:+ b) = (String.length a + String.length b)%nat.
Proof.
  induction a as [|x a IH]; [reflexivity |].
  rewrite str_app_cons. cbn [String.length]. rewrite IH. reflexivity.
Qed.

(** Two paths that differ in what follows the last slash only, and
    there in names that are neither [.] nor [..], name two files. *)
Lemma resolve_tails_distinct (dirs : gset string) (cwd r s1 s2 k1 k2 : string) :
  os.path.has_char "/" s1 = false → os.path.has_char "/" s2 = false →
  3 ≤ String.length s1 → 3 ≤ String.length s2 → s1 ≠ s2 →
  posix.resolve dirs cwd (r +:+ s1) = Some k1 →
  posix.resolve dirs cwd (r +:+ s2) = Some k2 →
  k1 ≠ k2.
Proof.
  intros Hf1 Hf2 Hl1 Hl2 Hne. unfold posix.resolve.
  assert (Ht : ∀ s, 3 ≤ String.length s → Py.truthy (r +:+ s) = true).
  { intros s Hl. apply truthy_app_r. destruct s; [cbn in Hl; lia | reflexivity]. }
  rewrite !Ht by assumption.
  assert (Hhead : ∀ s, os.path.has_char "/" s = false →
                       Py.startswith "/" (r +:+ s) = Py.startswith "/" r).
  { intros s Hs. destruct r as [|a r]; [| reflexivity].
    rewrite str_app_nil_l. destruct s as [|b s]; [reflexivity |].
    cbn [os.path.has_char Py.startswith] in Hs |- *.
    apply orb_false_elim in Hs as [Hb _].
    rewrite Ascii.eqb_sym, Hb. reflexivity. }
  rewrite !Hhead by assumption.
  set (q := if Py.startswith "/" r then r else cwd +:+ "/" +:+ r).
  assert (Hq : ∀ s, (if Py.startswith "/" r then r +:+ s else cwd +:+ "/" +:+ r +:+ s)
                    = q +:+ s).
  { intros s. subst q. destruct (Py.startswith "/" r); [reflexivity |].
    rewrite !str_app_assoc. reflexivity. }
  rewrite !Hq.
  destruct (split_char_snoc "/" s1 Hf1 q) as (init & last & Hinit & ->).
  destruct (split_char_snoc "/" s2 Hf2 q) as (init' & last' & Hinit' & ->).
  rewrite Hinit in Hinit'. apply app_inj_tail in Hinit' as [<- <-].
  rewrite !walk_app.
  destruct (posix.walk dirs [] init) as [stack|]; [| discriminate].
  cbn [mbind option_bind].
  assert (Hname : ∀ s, 3 ≤ String.length s →
                       posix.walk dirs stack [last +:+ s]
                       = if posix.is_dir_key dirs (posix.key stack)
                         then Some ((last +:+ s) :: stack) else None).
  { intros s Hl. cbn [posix.walk].
    destruct (posix.is_dir_key dirs (posix.key stack)); [| reflexivity].
    assert (Hlen : 3 ≤ String.length (last +:+ s))
      by (rewrite str_length_app; lia).
    rewrite !bool_decide_eq_false_2; [reflexivity | |  |];
      intros E; rewrite E in Hlen; cbn in Hlen; lia. }
  rewrite !Hname by assumption.
  destruct (posix.is_dir_key dirs (posix.key stack)); [| discriminate].
  cbn [fmap option_fmap option_map]. intros [= <-] [= <-] E.
  unfold posix.key in E. apply (inj (String.app "/")) in E.
  cbn [rev] in E. apply concat_snoc_inj, (inj (String.app last)) in E.
  contradiction.
Qed.

Lemma log_err_distinct (cfg : CppCheckConfig.t) (w : World) (k1 k2 : string) :
  posix.lookup w (log_file cfg) = Some k1 →
  posix.lookup w (err_file cfg) = Some k2 →
  k1 ≠ k2.
Proof.
  unfold posix.lookup, log_file, err_file, os.path.join. cbn [fold_left].
  unfold os.path.join1.
  generalize (CppCheckConfig.results_dir cfg) as d.
  generalize (CppCheckConfig.name cfg) as n. intros n d.
  assert (Hhead : Py.startswith "/" (n +:+ "_log.txt") = Py.startswith "/" (n +:+ "_err.txt"))
    by (destruct n; reflexivity).
  rewrite Hhead. clear Hhead.
  assert (Hgo : ∀ r, posix.resolve (fs_dirs (w_fs w)) (w_cwd w) (r +:+ "_log.txt") = Some k1 →
                     posix.resolve (fs_dirs (w_fs w)) (w_cwd w) (r +:+ "_err.txt") = Some k2 →
                     k1 ≠ k2).
  { intros r. apply resolve_tails_distinct; try reflexivity; try (cbn; lia). discriminate. }
  destruct (Py.startswith "/" (n +:+ "_err.txt")); [apply Hgo |].
  destruct (negb (Py.truthy d) || Py.endswith_char "/" d).
  - rewrite <- !str_app_assoc. apply Hgo.
  - rewrite <- !(str_app_assoc "/" n), <- !(str_app_assoc d). apply Hgo.
Qed.

(** X8: [execute] on a name the mapping holds rebinds that configuration,
    and only that one, to the working directory.  This holds however the
    run ends, also when it raises; the executable and the version
    attribute stay. *)
Theorem execute_rebinds_configuration
    (self : CppCheck.t) (config working_dir : string) (w : World) (cfg0 : CppCheckConfig.t) :
  CppCheck.configurations self !! config = Some cfg0 →
  CppCheck.configurations (CppCheck.execute config working_dir (self, w)).2.1 !! config
  = Some (bound_to working_dir cfg0)
  ∧ (∀ other, other ≠ config →
       CppCheck.configurations (CppCheck.execute config working_dir (self, w)).2.1 !! other
       = CppCheck.configurations self !! other)
  ∧ CppCheck._cppcheck_exe (CppCheck.execute config working_dir (self, w)).2.1
    = CppCheck._cppcheck_exe self
  ∧ CppCheck._version (CppCheck.execute config working_dir (self, w)).2.1
    = CppCheck._version self.
Proof.
  intros Hcfg.
  assert (Hself : (CppCheck.execute config working_dir (self, w)).2.1
                  = CppCheck.set_configuration config (bound_to working_dir cfg0) self).
  { rewrite (execute_known self config working_dir w cfg0 Hcfg). cbn zeta.
    destruct (CppCheckConfig.set_cpp_working_dir _ _) as [[[]|e] s]; [| reflexivity].
    destruct (CppCheckConfig.build_command _ _) as [[command|e] w2]; [| reflexivity].
    destruct (CppCheck.cppcheck _ _ _ _) as [[r|e] w3]; [| reflexivity].
    destruct ((f <- open_w (log_file _) ;; write f _) w3) as [[[]|e] w4];
      [| reflexivity].
    destruct ((f <- open_w (err_file _) ;; write f _) w4) as [[[]|e] w5];
      reflexivity. }
  rewrite Hself. cbn. repeat split.
  - apply lookup_insert_eq.
  - intros other Hne. apply lookup_insert_ne. congruence.
Qed.

(** X9: a configuration without suppression entries cannot be analysed.
    [execute] binds it and sees to the results directory, then raises: the
    command is never built, so no process is started, nothing is printed
    and no log is written.  The exception is [TypeError], or [OSError]
    when the results directory could not be made. *)
Theorem execute_without_suppression_raises
    (self : CppCheck.t) (config working_dir : string) (w : World) (cfg0 : CppCheckConfig.t) :
  CppCheck.configurations self !! config = Some cfg0 →
  AnalyzerConfig.suppression (CppCheckConfig._raw_config cfg0) = None
  ∨ AnalyzerConfig.suppression (CppCheckConfig._raw_config cfg0) = Some [] →
  (CppCheck.execute config working_dir (self, w)).1
  = Raise (if os.path.isdir w (CppCheckConfig.results_dir (bound_to working_dir cfg0))
              || (host_makedirs (w_fs w) (w_cwd w)
                    (CppCheckConfig.results_dir (bound_to working_dir cfg0))).1
           then TypeError else OSError)
  ∧ w_spawned (CppCheck.execute config working_dir (self, w)).2.2 = w_spawned w
  ∧ w_console (CppCheck.execute config working_dir (self, w)).2.2 = w_console w
  ∧ fs_files (w_fs (CppCheck.execute config working_dir (self, w)).2.2)
    = fs_files (w_fs w).
Proof.
  intros Hcfg Hs.
  rewrite (execute_known self config working_dir w cfg0 Hcfg). cbn zeta.
  rewrite setter_run. cbn zeta.
  destruct (os.path.isdir w _); cbn [orb fst snd].
  - rewrite (build_command_no_entries (bound_to working_dir cfg0) w Hs). repeat split.
  - destruct (host_makedirs _ _ _) as [[] dirs]; cbn [fst snd].
    + rewrite (build_command_no_entries (bound_to working_dir cfg0) _ Hs). repeat split.
    + repeat split.
Qed.

(** X10: a run that goes through.  When the results directory is there,
    the command is built and the process comes back, and the two logs may
    be written in the directories the process left, [execute] returns the
    exit code of the process; the log of the configuration holds exactly
    its stdout and the error log exactly its stderr, every other file is as
    the process left it, and the one process that was started ran the
    executable with the command in the working directory. *)
Theorem execute_writes_logs
    (self : CppCheck.t) (config working_dir : string) (w w1 w2 : World)
    (cfg0 : CppCheckConfig.t) (command : string) (rc : Z) (out err : string) (fs3 : FS) :
  CppCheck.configurations self !! config = Some cfg0 →
  CppCheckConfig.set_cpp_working_dir working_dir (cfg0, w)
  = (Ok tt, (bound_to working_dir cfg0, w1)) →
  CppCheckConfig.build_command (bound_to working_dir cfg0) w1 = (Ok command, w2) →
  host_shell (w_fs w2) (w_environ w2) (CppCheck._cppcheck_exe self +:+ " " +:+ command)
    working_dir
  = (Ok (rc, out, err), fs3) →
  (∀ fs, fs_dirs fs = fs_dirs fs3 →
         host_may_write fs (w_cwd w) (log_file (bound_to working_dir cfg0)) = true) →
  (∀ fs, fs_dirs fs = fs_dirs fs3 →
         host_may_write fs (w_cwd w) (err_file (bound_to working_dir cfg0)) = true) →
  (CppCheck.execute config working_dir (self, w)).1 = Ok rc
  ∧ read_text (CppCheck.execute config working_dir (self, w)).2.2
      (log_file (bound_to working_dir cfg0)) = Some out
  ∧ read_text (CppCheck.execute config working_dir (self, w)).2.2
      (err_file (bound_to working_dir cfg0)) = Some err
  ∧ (∀ k, posix.lookup (CppCheck.execute config working_dir (self, w)).2.2
            (log_file (bound_to working_dir cfg0)) ≠ Some k →
          posix.lookup (CppCheck.execute config working_dir (self, w)).2.2
            (err_file (bound_to working_dir cfg0)) ≠ Some k →
          fs_files (w_fs (CppCheck.execute config working_dir (self, w)).2.2) !! k
          = fs_files fs3 !! k)
  ∧ w_spawned (CppCheck.execute config working_dir (self, w)).2.2
    = w_spawned w
      ++ [{| pc_command := CppCheck._cppcheck_exe self +:+ " " +:+ command;
             pc_cwd := working_dir;
             pc_outcome := Ok (rc, out, err) |}].
Proof.
  intros Hcfg Hset Hbuild Hshell Hlog Herr.
  assert (Hsame : w_spawned w2 = w_spawned w ∧ w_cwd w2 = w_cwd w).
  { destruct (setter_binds working_dir cfg0 w) as (r1 & w1' & Hset' & _ & Hsp1 & _ & Hc1 & _).
    rewrite Hset in Hset'. injection Hset' as _ <-.
    destruct (build_command_touches (bound_to working_dir cfg0) w1)
      as [(_ & _ & Hc2 & _ & Hsp2) _].
    rewrite Hbuild in Hsp2, Hc2. cbn [snd] in Hsp2, Hc2. split; congruence. }
  destruct Hsame as [Hsp Hcwd].
  rewrite (execute_known self config working_dir w cfg0 Hcfg). cbn zeta.
  rewrite Hset. cbn [fst snd]. rewrite Hbuild, cppcheck_world. cbn zeta.
  cbn [CppCheck.set_configuration CppCheck._cppcheck_exe].
  rewrite Hshell. cbn [fst snd].
  set (lf := log_file (bound_to working_dir cfg0)) in *.
  set (ef := err_file (bound_to working_dir cfg0)) in *.
  set (w3 := log_console "CPPCheck Complete" _).
  assert (Hfs3 : w_fs w3 = fs3) by reflexivity.
  assert (Hcwd3 : w_cwd w3 = w_cwd w) by exact Hcwd.
  assert (Hsp3 : w_spawned w3
                 = w_spawned w
                   ++ [{| pc_command := CppCheck._cppcheck_exe self +:+ " " +:+ command;
                          pc_cwd := working_dir;
                          pc_outcome := Ok (rc, out, err) |}])
    by (cbn; rewrite Hsp; reflexivity).
  clearbody w3.
  assert (Hm1 : host_may_write (w_fs w3) (w_cwd w3) lf = true)
    by (rewrite Hcwd3; apply Hlog; rewrite Hfs3; reflexivity).
  destruct (may_write_lookup _ _ Hm1) as [k1 Hk1].
  rewrite (save_file lf out w3 Hm1), (with_file_key _ k1 _ w3 Hk1). cbn [fst snd].
  assert (Hm2 : host_may_write (w_fs (with_key k1 out w3)) (w_cwd (with_key k1 out w3)) ef
                = true).
  { change (w_cwd (with_key k1 out w3)) with (w_cwd w3). rewrite Hcwd3.
    apply Herr. cbn. rewrite Hfs3. reflexivity. }
  destruct (may_write_lookup _ _ Hm2) as [k2 Hk2].
  rewrite (save_file ef err _ Hm2), (with_file_key _ k2 _ _ Hk2). cbn [fst snd].
  change (posix.lookup (with_key k1 out w3) ef) with (posix.lookup w3 ef) in Hk2.
  pose proof (log_err_distinct _ _ _ _ Hk1 Hk2) as Hne.
  unfold read_text.
  change (posix.lookup (with_key k2 err (with_key k1 out w3))) with (posix.lookup w3).
  rewrite Hk1, Hk2. cbn [mbind option_bind with_key set_files set_fs w_fs fs_files w_spawned].
  rewrite Hfs3. repeat split.
  - rewrite lookup_insert_ne by congruence. apply lookup_insert_eq.
  - apply lookup_insert_eq.
  - intros k Hp1 Hp2.
    rewrite lookup_insert_ne by congruence. rewrite lookup_insert_ne by congruence.
    reflexivity.
  - exact Hsp3.
Qed.

End Running.

Section Loading.
Context `{Host}.

(** ** Loading configurations *)

(** One step of the loop of [load_config]. *)
Lemma load_loop (l : list (string * AnalyzerConfig.t)) :
  ∀ (self : CppCheck.t) (w : World),
    for_in l (λ item : string * AnalyzerConfig.t,
                on_self (modify (CppCheck.set_configuration item.1
                                   (CppCheckConfig.__init__ item.1 item.2))))
           (self, w)
    = (Ok tt,
       (fold_left (λ s item, CppCheck.set_configuration item.1
                               (CppCheckConfig.__init__ item.1 item.2) s) l self,
        w)).
Proof.
  induction l as [|item l IH]; intros self w; [reflexivity |].
  cbn [for_in fold_left]. unfold bind at 1. run. cbn [fst snd]. apply IH.
Qed.

Lemma load_fold_lookup (l : list (string * AnalyzerConfig.t)) :
  ∀ (self : CppCheck.t) (name : string),
    NoDup l.*1 →
    CppCheck.configurations
      (fold_left (λ s item, CppCheck.set_configuration item.1
                              (CppCheckConfig.__init__ item.1 item.2) s) l self) !! name
    = match (list_to_map l : gmap string AnalyzerConfig.t) !! name with
      | Some raw => Some (CppCheckConfig.__init__ name raw)
      | None => CppCheck.configurations self !! name
      end.
Proof.
  induction l as [|[k v] l IH]; intros self name Hnd; [reflexivity |].
  cbn [fold_left fst snd]. rewrite fmap_cons in Hnd. cbn [fst] in Hnd.
  apply NoDup_cons in Hnd as [Hk Hnd].
  rewrite IH by exact Hnd. cbn [list_to_map foldr].
  destruct (decide (k = name)) as [-> | Hne].
  - rewrite lookup_insert_eq.
    rewrite (not_elem_of_list_to_map_1 _ _ Hk). cbn.
    apply lookup_insert_eq.
  - rewrite (lookup_insert_ne _ k name) by exact Hne.
    destruct (_ !! name); [reflexivity |]. cbn.
    apply lookup_insert_ne. exact Hne.
Qed.

Lemma load_fold_keeps (l : list (string * AnalyzerConfig.t)) :
  ∀ self : CppCheck.t,
    CppCheck._cppcheck_exe
      (fold_left (λ s item, CppCheck.set_configuration item.1
                              (CppCheckConfig.__init__ item.1 item.2) s) l self)
    = CppCheck._cppcheck_exe self
    ∧ CppCheck._version
        (fold_left (λ s item, CppCheck.set_configuration item.1
                                (CppCheckConfig.__init__ item.1 item.2) s) l self)
      = CppCheck._version self.
Proof.
  induction l as [|item l IH]; intros self; [split; reflexivity |].
  cbn [fold_left]. destruct (IH (CppCheck.set_configuration item.1
                                   (CppCheckConfig.__init__ item.1 item.2) self)) as [-> ->].
  split; reflexivity.
Qed.

(** X11: after a configuration file has been loaded, every name of the
    document maps to a fresh configuration object of that name, built from
    the entry of the document and bound to no directory yet; a name the
    document does not have keeps what it had.  A configuration loaded
    before under a name of the document is replaced. *)
Theorem load_config_lookup
    (json_load : string → M World (gmap string AnalyzerConfig.t)) (file : string)
    (self : CppCheck.t) (w w1 : World) (raw_json : gmap string AnalyzerConfig.t) :
  json_load file w = (Ok raw_json, w1) →
  ∃ self',
    CppCheck.load_config json_load file (self, w) = (Ok tt, (self', w1))
    ∧ (∀ name raw, raw_json !! name = Some raw →
         CppCheck.configurations self' !! name = Some (CppCheckConfig.__init__ name raw))
    ∧ (∀ name, raw_json !! name = None →
         CppCheck.configurations self' !! name = CppCheck.configurations self !! name)
    ∧ CppCheck._cppcheck_exe self' = CppCheck._cppcheck_exe self
    ∧ CppCheck._version self' = CppCheck._version self.
Proof.
  intros Hload. eexists. split.
  - unfold CppCheck.load_config, bind at 1. unfold on_world, zoom. cbn [fst snd].
    rewrite Hload. cbn [fst snd]. apply load_loop.
  - pose proof (load_fold_lookup (map_to_list raw_json) self) as Hlook.
    pose proof (load_fold_keeps (map_to_list raw_json) self) as [Hexe Hver].
    repeat split; [| | exact Hexe | exact Hver].
    + intros name raw Hraw.
      rewrite Hlook by apply NoDup_fst_map_to_list.
      rewrite list_to_map_to_list, Hraw. reflexivity.
    + intros name Hraw.
      rewrite Hlook by apply NoDup_fst_map_to_list.
      rewrite list_to_map_to_list, Hraw. reflexivity.
Qed.

End Loading.

Section FormatterCommands.
Context `{Host}.

(** ** The command lines of the formatter *)

Lemma fold_left_app_flat_map {A B} (g : A → list B) (l : list A) :
  ∀ acc, fold_left (λ acc x, acc ++ g x) l acc = acc ++ flat_map g l.
Proof.
  induction l as [|x l IH]; intros acc; cbn [fold_left flat_map].
  - rewrite app_nil_r. reflexivity.
  - rewrite IH, app_assoc. reflexivity.
Qed.

(** The command of a directory entry with the loop over the extensions
    written as one list of matches. *)
Lemma build_directory_command_closed
    (self : ClangFormatConfig.t) (dir_obj : DirSpec.t) (working_dir : string) (w : World) :
  ClangFormatConfig.build_directory_command self dir_obj working_dir w
  = (Ok (ClangFormatConfig.inplace self +:+ " " +:+ ClangFormatConfig.style self +:+ " "
         +:+ Py.join " "
               (flat_map
                  (λ ext, host_glob (w_fs w) (w_cwd w)
                            (search_pattern dir_obj
                               (host_realpath (w_fs w) (w_cwd w)
                                  (os.path.join working_dir [DirSpec.path dir_obj]))
                               ext)
                            (DirSpec.recursive dir_obj))
                  (DirSpec.extensions dir_obj))),
     w).
Proof.
  unfold ClangFormatConfig.build_directory_command, bind, gets, ret. cbn [fst snd].
  unfold search_pattern.
  rewrite (fold_left_app_flat_map
             (λ ext, host_glob (w_fs w) (w_cwd w)
                       (if DirSpec.recursive dir_obj
                        then os.path.join
                               (host_realpath (w_fs w) (w_cwd w)
                                  (os.path.join working_dir [DirSpec.path dir_obj]))
                               ["**"; ext]
                        else os.path.join
                               (host_realpath (w_fs w) (w_cwd w)
                                  (os.path.join working_dir [DirSpec.path dir_obj]))
                               [ext])
                       (DirSpec.recursive dir_obj))
             (DirSpec.extensions dir_obj) []).
  reflexivity.
Qed.


(** X13: a directory entry none of whose extensions matches a file, or
    that lists no extension at all, still yields a command: the in-place
    flag and the style followed by a blank, and no path. *)
Theorem directory_without_matches
    (self : ClangFormatConfig.t) (dir_obj : DirSpec.t) (working_dir : string) (w : World) :
  (∀ ext, In ext (DirSpec.extensions dir_obj) →
     host_glob (w_fs w) (w_cwd w)
       (search_pattern dir_obj
          (host_realpath (w_fs w) (w_cwd w)
             (os.path.join working_dir [DirSpec.path dir_obj]))
          ext)
       (DirSpec.recursive dir_obj) = []) →
  ClangFormatConfig.build_directory_command self dir_obj working_dir w
  = (Ok (ClangFormatConfig.inplace self +:+ " " +:+ ClangFormatConfig.style self +:+ " "), w).
Proof.
  intros Hnone. rewrite build_directory_command_closed.
  induction (DirSpec.extensions dir_obj) as [|ext exts IH].
  - reflexivity.
  - cbn [flat_map]. rewrite (Hnone ext) by (left; reflexivity).
    cbn [app]. apply IH. intros e He. apply Hnone. right. exact He.
Qed.

(** A loop whose rounds each start one process with the property [P]
    starts only such processes. *)
Lemma for_in_return_calls {A R} (P : ProcCall → Prop) (body : A → M World (option R)) :
  (∀ x w, ∃ c, w_spawned (body x w).2 = w_spawned w ++ [c] ∧ P c) →
  ∀ l w, ∃ calls,
    w_spawned (for_in_return l body w).2 = w_spawned w ++ calls ∧ Forall P calls.
Proof.
  intros Hbody. induction l as [|x l IH]; intros w.
  - exists []. cbn. rewrite app_nil_r. split; constructor.
  - destruct (Hbody x w) as (c & Hsp & Hc).
    cbn [for_in_return]. unfold bind.
    destruct (body x w) as [[[r|]|e] w1]; cbn [fst snd] in *.
    + exists [c]. split; [exact Hsp | repeat constructor; exact Hc].
    + destruct (IH w1) as (calls & Hsp' & Hall).
      exists (c :: calls). split; [| constructor; assumption].
      rewrite Hsp', Hsp, <- app_assoc. reflexivity.
    + exists [c]. split; [exact Hsp | repeat constructor; exact Hc].
Qed.

(** One round: the command is the template applied to what was built. *)
Lemma shell_round_command (self : ClangFormatter.t) (build : M World string) :
  (∀ w, ∃ tail,
      build w = (Ok (ClangFormatConfig.inplace (ClangFormatter.config self) +:+ " "
                     +:+ ClangFormatConfig.style (ClangFormatter.config self) +:+ " "
                     +:+ tail), w)) →
  ∀ w, ∃ c,
    w_spawned
      ((args <- build ;;
        let command := ClangFormatter.template (ClangFormatter.clang_format_exe self) args in
        r <- ClangFormatter._execute_shell_cmd command (Some (ClangFormatter.working_dir self)) ;;
        let '(return_code, stdout, stderr) := r in
        if Py.truthy stderr then print stderr ;; ret (Some return_code) else ret None) w).2
    = w_spawned w ++ [c]
    ∧ ∃ args, pc_command c = formatter_prefix self +:+ args.
Proof.
  intros Hbuild w. destruct (Hbuild w) as [tail Htail].
  unfold bind, ClangFormatter._execute_shell_cmd. rewrite Htail. cbn [default].
  destruct (host_shell _ _ _ _) as [[[[rc out] err]|e] fs'] eqn:Es.
  - eexists. split.
    + cbn. destruct (Py.truthy err); reflexivity.
    + exists tail. cbn [pc_command]. unfold ClangFormatter.template, formatter_prefix.
      rewrite !str_app_assoc. reflexivity.
  - eexists. split; [reflexivity |].
    exists tail. cbn [pc_command]. unfold ClangFormatter.template, formatter_prefix.
    rewrite !str_app_assoc. reflexivity.
Qed.

(** X14: every process the formatter starts is the executable (the word
    None when none was given) with [-verbose], the in-place flag, the style
    and then the paths, in this order. *)
Theorem formatter_commands_carry_flags (self : ClangFormatter.t) (w : World) :
  ∃ calls,
    w_spawned (ClangFormatter.execute self w).2 = w_spawned w ++ calls
    ∧ Forall (λ c, ∃ args, pc_command c = formatter_prefix self +:+ args) calls.
Proof.
  unfold ClangFormatter.execute.
  set (body1 := λ file : string, _).
  set (body2 := λ directory : DirSpec.t, _).
  destruct (for_in_return_calls (λ c, ∃ args, pc_command c = formatter_prefix self +:+ args)
              body1) with (l := ClangFormatConfig.files (ClangFormatter.config self)) (w := w)
    as (calls1 & Hsp1 & Hall1).
  { intros file w0. apply shell_round_command. intros w1.
    unfold ClangFormatConfig.build_file_command. run. eexists.
    cbn [Py.join String.concat]. reflexivity. }
  unfold bind.
  destruct (for_in_return _ body1 w) as [[[rc|]|e] w1]; cbn [fst snd] in *.
  - exists calls1. split; assumption.
  - destruct (for_in_return_calls (λ c, ∃ args, pc_command c = formatter_prefix self +:+ args)
                body2) with (l := ClangFormatConfig.directories (ClangFormatter.config self))
                            (w := w1)
      as (calls2 & Hsp2 & Hall2).
    { intros d w0. apply shell_round_command. intros w2.
      rewrite build_directory_command_closed. eexists. reflexivity. }
    destruct (for_in_return _ body2 w1) as [r2 w2]; cbn [fst snd] in *.
    exists (calls1 ++ calls2). split; [| apply Forall_app; auto].
    destruct r2 as [[rc|]|e]; cbn; rewrite Hsp2, Hsp1, <- app_assoc; reflexivity.
  - exists calls1. split; assumption.
Qed.

End FormatterCommands.

Section Version.
Context `{Host}.

(** ** The version property, whatever the tool prints *)

(** X1: reading the version never yields a value.  The tool is run once,
    with [--version] from the current directory, and then the property
    raises: [ValueError] whenever the process came back, what the shell
    raised otherwise.  The [_version] attribute and the configurations are
    as they were. *)
Theorem version_always_raises (self : CppCheck.t) (w : World) :
  ∃ e,
    (CppCheck.version (self, w)).1 = Raise e
    ∧ (CppCheck.version (self, w)).2.1 = self
    ∧ w_spawned (CppCheck.version (self, w)).2.2
      = w_spawned w
        ++ [{| pc_command := CppCheck._cppcheck_exe self +:+ " --version";
               pc_cwd := w_cwd w;
               pc_outcome :=
                 (host_shell (w_fs w) (w_environ w)
                    (CppCheck._cppcheck_exe self +:+ " --version") (w_cwd w)).1 |}]
    ∧ match (host_shell (w_fs w) (w_environ w)
               (CppCheck._cppcheck_exe self +:+ " --version") (w_cwd w)).1 with
      | Ok _ => e = ValueError
      | Raise e' => e = e'
      end.
Proof.
  unfold CppCheck.version, os.getcwd. run.
  rewrite cppcheck_world. cbn zeta.
  change (" " +:+ "--version") with " --version".
  destruct (host_shell _ _ _ _) as [[r|e] fs']; cbn.
  - exists ValueError. repeat split; reflexivity.
  - exists e. repeat split; reflexivity.
Qed.

End Version.

(** * The further properties at concrete inputs *)

(** X3 at two entries that name the same existing file. *)
Lemma generate_writes_every_entry_witness :
  ∃ path,
    @CppCheckConfig.generate_suppression_list demo_host
      (demo_config [] (Some [demo_entry "src/a.cpp"; demo_entry_no_line "src/a.cpp"]))
      demo_world
    = (Ok path,
       with_file
         (suppression_file
            (demo_config [] (Some [demo_entry "src/a.cpp"; demo_entry_no_line "src/a.cpp"])))
         (entries_text demo_world [demo_entry "src/a.cpp"; demo_entry_no_line "src/a.cpp"])
         demo_world)
    ∧ Py.truthy path = true.
Proof.
  apply (@generate_writes_every_entry demo_host
           (demo_config [] (Some [demo_entry "src/a.cpp"; demo_entry_no_line "src/a.cpp"]))
           demo_world [demo_entry "src/a.cpp"; demo_entry_no_line "src/a.cpp"]).
  - reflexivity.
  - discriminate.
  - repeat constructor.
  - reflexivity.
Defined.

(** X4 at one entry. *)
Lemma generate_twice_same_witness :
  ∃ path w1,
    @CppCheckConfig.generate_suppression_list demo_host
      (demo_config [] (Some [demo_entry "src/a.cpp"])) demo_world = (Ok path, w1)
    ∧ @CppCheckConfig.generate_suppression_list demo_host
        (demo_config [] (Some [demo_entry "src/a.cpp"])) w1 = (Ok path, w1).
Proof.
  apply (@generate_twice_same demo_host
           (demo_config [] (Some [demo_entry "src/a.cpp"])) demo_world
           [demo_entry "src/a.cpp"]).
  - reflexivity.
  - discriminate.
  - repeat constructor.
  - intros fs Hdirs. unfold host_may_write, demo_host, demo_may_write.
    rewrite Hdirs. reflexivity.
Defined.


(** X6 at the demo project, whose results directory is not there yet. *)
Lemma working_dir_setter_makes_results_dir_witness :
  ∃ w',
    @CppCheckConfig.set_cpp_working_dir demo_host "/home/dev/proj"
      (demo_config [] None, demo_world)
    = (Ok tt, (bound_to "/home/dev/proj" (demo_config [] None), w'))
    ∧ CppCheckConfig.results_dir (bound_to "/home/dev/proj" (demo_config [] None))
      = "/home/dev/proj/out/cfg"
    ∧ os.path.isdir demo_world "/home/dev/proj/out/cfg" = false
    ∧ os.path.isdir w' "/home/dev/proj/out/cfg" = true
    ∧ @CppCheckConfig.set_cpp_working_dir demo_host "/home/dev/proj"
        (bound_to "/home/dev/proj" (demo_config [] None), w')
      = (Ok tt, (bound_to "/home/dev/proj" (demo_config [] None), w')).
Proof.
  destruct (@working_dir_setter_makes_results_dir demo_host "/home/dev/proj"
              (demo_config [] None) demo_world)
    as (w' & Hset & _ & Hdir & Hisdir & _ & _ & _ & Hagain).
  - right. reflexivity.
  - exists w'. repeat split; [exact Hset | exact Hisdir | exact Hagain].
Defined.

(** X7 at a host whose [makedirs] makes [out] and fails at [out/cfg]:
    the setter raises, and [out] is there. *)
Lemma working_dir_setter_refused_witness :
  ∃ w',
    @CppCheckConfig.set_cpp_working_dir failing_host "/home/dev/proj"
      (demo_config [] None, demo_world)
    = (Raise OSError, (bound_to "/home/dev/proj" (demo_config [] None), w'))
    ∧ fs_files (w_fs w') = fs_files (w_fs demo_world)
    ∧ fs_dirs (w_fs w') = fs_dirs (w_fs demo_world) ∪ {[ "/home/dev/proj/out" ]}
    ∧ os.path.isdir demo_world "out" = false.
Proof.
  destruct (@working_dir_setter_refused failing_host "/home/dev/proj"
              (demo_config [] None) demo_world)
    as (w' & Hset & _ & _ & Hdirs & _ & Hfiles & _).
  - reflexivity.
  - reflexivity.
  - exists w'. split; [exact Hset |]. split; [exact Hfiles |]. split; [exact Hdirs |].
    reflexivity.
Defined.

(** X8 at the demo analyzer, run on its one configuration. *)
Lemma execute_rebinds_configuration_witness :
  CppCheck.configurations
    (@CppCheck.execute demo_host "cfg" "/home/dev/proj"
       (demo_cppcheck (Some [demo_entry "src/a.cpp"]), demo_world)).2.1 !! "cfg"
  = Some (bound_to "/home/dev/proj" (demo_config [] (Some [demo_entry "src/a.cpp"]))).
Proof.
  apply (@execute_rebinds_configuration demo_host
           (demo_cppcheck (Some [demo_entry "src/a.cpp"])) "cfg" "/home/dev/proj"
           demo_world (demo_config [] (Some [demo_entry "src/a.cpp"]))).
  reflexivity.
Defined.

(** X9 at a configuration whose suppression list is null. *)
Lemma execute_without_suppression_raises_witness :
  (@CppCheck.execute demo_host "cfg" "/home/dev/proj" (demo_cppcheck None, demo_world)).1
  = Raise TypeError
  ∧ w_spawned
      (@CppCheck.execute demo_host "cfg" "/home/dev/proj" (demo_cppcheck None, demo_world)).2.2
    = [].
Proof.
  destruct (@execute_without_suppression_raises demo_host (demo_cppcheck None) "cfg"
              "/home/dev/proj" demo_world (demo_config [] None))
    as (Hres & Hsp & _).
  - reflexivity.
  - left. reflexivity.
  - split; [rewrite Hres | rewrite Hsp]; reflexivity.
Defined.

(** X11 at a document of two configurations, loaded over an analyzer that
    held one of the two names. *)
Lemma load_config_lookup_witness :
  ∃ self',
    @CppCheck.load_config demo_json_load "cppcheck.json" (demo_cppcheck None, demo_world)
    = (Ok tt, (self', demo_world))
    ∧ CppCheck.configurations self' !! "cfg"
      = Some (CppCheckConfig.__init__ "cfg" (demo_analyzer [] (Some [demo_entry "src/a.cpp"])))
    ∧ CppCheck.configurations self' !! "release"
      = Some (CppCheckConfig.__init__ "release" (demo_analyzer ["--inconclusive"] None))
    ∧ CppCheck.configurations self' !! "debug" = None.
Proof.
  destruct (@load_config_lookup demo_json_load "cppcheck.json" (demo_cppcheck None)
              demo_world demo_world demo_document)
    as (self' & Hload & Hin & Hout & _).
  - reflexivity.
  - exists self'. split; [exact Hload |]. split; [| split].
    + apply Hin. reflexivity.
    + apply Hin. reflexivity.
    + rewrite Hout by reflexivity. reflexivity.
Defined.

(** X13 at a recursive directory entry on a host whose glob finds
    nothing. *)
Lemma directory_without_matches_witness :
  @ClangFormatConfig.build_directory_command demo_host demo_formatter
    {| DirSpec.path := "src"; DirSpec.recursive := true;
       DirSpec.extensions := ["*.hpp"; "*.cpp"] |}
    "/home/dev/proj" demo_world
  = (Ok "-i -style=file ", demo_world).
Proof.
  apply (@directory_without_matches demo_host demo_formatter
           {| DirSpec.path := "src"; DirSpec.recursive := true;
              DirSpec.extensions := ["*.hpp"; "*.cpp"] |}
           "/home/dev/proj" demo_world).
  intros ext _. reflexivity.
Defined.

(** X10 at the demo analyzer: the tool prints OK and nothing on stderr. *)
Lemma execute_writes_logs_witness :
  (@CppCheck.execute demo_host "cfg" "/home/dev/proj"
     (demo_cppcheck (Some [demo_entry "src/a.cpp"]), demo_world)).1 = Ok 0%Z
  ∧ read_text (@CppCheck.execute demo_host "cfg" "/home/dev/proj"
       (demo_cppcheck (Some [demo_entry "src/a.cpp"]), demo_world)).2.2
      "/home/dev/proj/out/cfg/cfg_log.txt" = Some "OK"
  ∧ read_text (@CppCheck.execute demo_host "cfg" "/home/dev/proj"
       (demo_cppcheck (Some [demo_entry "src/a.cpp"]), demo_world)).2.2
      "/home/dev/proj/out/cfg/cfg_err.txt" = Some EmptyString
  ∧ length (w_spawned (@CppCheck.execute demo_host "cfg" "/home/dev/proj"
       (demo_cppcheck (Some [demo_entry "src/a.cpp"]), demo_world)).2.2) = 1%nat.
Proof.
  pose (cfg0 := demo_config [] (Some [demo_entry "src/a.cpp"])).
  pose (w1 := (@CppCheckConfig.set_cpp_working_dir demo_host "/home/dev/proj"
                 (cfg0, demo_world)).2.2).
  pose (built := @CppCheckConfig.build_command demo_host (bound_to "/home/dev/proj" cfg0) w1).
  pose (command := match built.1 with Ok c => c | Raise _ => EmptyString end).
  destruct (@execute_writes_logs demo_host
              (demo_cppcheck (Some [demo_entry "src/a.cpp"])) "cfg" "/home/dev/proj"
              demo_world w1 built.2 cfg0 command 0%Z "OK" EmptyString (w_fs built.2))
    as (Hres & Hlog & Herr & _ & Hsp).
  - reflexivity.
  - vm_compute. reflexivity.
  - vm_compute. reflexivity.
  - reflexivity.
  - intros fs Hdirs. unfold host_may_write, demo_host, demo_may_write.
    rewrite Hdirs. vm_compute. reflexivity.
  - intros fs Hdirs. unfold host_may_write, demo_host, demo_may_write.
    rewrite Hdirs. vm_compute. reflexivity.
  - split; [exact Hres |]. split; [exact Hlog |]. split; [exact Herr |].
    rewrite Hsp. reflexivity.
Defined.
